(** * smartlogic-sdk: the Concept wire format and the authorized request layer

    A shallow embedding of [concept.go] and [client.go] of the Smartlogic
    client, together with the parts of the Go standard library whose
    behaviour the client relies on ([encoding/json], [net/url], [net/http]).

    - Go strings are byte sequences: they are modelled by [string], whose
      characters are the bytes.
    - The encoder of [encoding/json] is modelled in two steps, from a Go
      value to a JSON document and from the document to its compact text;
      its decoder works on the document read off a response body.
    - A method of [Client] is a function on a state made of the client and
      of the exchanges made over HTTP so far.  The HTTP client and the
      servers behind it are a parameter: a function that answers a request
      given the earlier exchanges.
    - An [io.Reader] given as a request body is consumed by the transport
      that sends it: the reader is threaded through the retry loop with
      what is left in it.
    - Contexts and the closing of response bodies are left out. *)

From Stdlib Require Import String Ascii List ZArith NArith Bool Lia.
Import ListNotations.
Open Scope string_scope.
Set Warnings "-register-all".

(** The double quote character, and string literals written with ['] in
    place of the double quote: [q "{'a':'b'}"] is the JSON text of an object
    with one member.  No literal below contains a real apostrophe. *)
Definition dquote : ascii := ascii_of_nat 34.
Definition backslash : ascii := ascii_of_nat 92.

Fixpoint q (s : string) : string :=
  match s with
  | EmptyString => EmptyString
  | String c rest => String (if Ascii.eqb c "'" then dquote else c) (q rest)
  end.

(** Errors.  [fmt.Errorf] keeps its format and arguments; an error made by
    the standard library is [Foreign], with the package it comes from. *)
Inductive error : Type :=
| errors_New (text : string)
| fmt_Errorf (format : string) (args : list fmt_arg)
| Foreign (origin : string) (text : string)
with fmt_arg : Type :=
| ArgString (s : string)
| ArgInt (n : Z)
| ArgError (e : error).

(** Keys in byte order, as [sort.Strings] puts them. *)
Fixpoint insertByKey {A} (k : string) (v : A) (l : list (string * A))
  : list (string * A) :=
  match l with
  | [] => [(k, v)]
  | (k', v') :: tl =>
    if String.leb k k' then (k, v) :: l else (k', v') :: insertByKey k v tl
  end.

Definition sortByKey {A} (l : list (string * A)) : list (string * A) :=
  fold_right (fun kv acc => insertByKey (fst kv) (snd kv) acc) [] l.

(** Assignment [m[k] = v] in a Go map, kept as an association list with
    one entry per key. *)
Fixpoint mapSet {A} (m : list (string * A)) (k : string) (v : A)
  : list (string * A) :=
  match m with
  | [] => [(k, v)]
  | (k', v') :: tl =>
    if String.eqb k' k then (k, v) :: tl else (k', v') :: mapSet tl k v
  end.

Fixpoint mapGet {A} (m : list (string * A)) (k : string) : option A :=
  match m with
  | [] => None
  | (k', v') :: tl => if String.eqb k' k then Some v' else mapGet tl k
  end.

(** [s[n:]], empty when [n] exceeds the length. *)
Fixpoint skip (n : nat) (s : string) : string :=
  match n, s with
  | O, _ => s
  | S _, EmptyString => EmptyString
  | S k, String _ rest => skip k rest
  end.

(** ** unicode/utf8 *)
Module utf8.

Definition RuneSelf : N := 128.
Definition RuneError : N := 65533.

Definition byteAt (s : string) (i : nat) : option N :=
  option_map N_of_ascii (String.get i s).

Definition continuation (b : N) : bool := ((128 <=? b) && (b <=? 191))%N.

(** [first] classifies a leading byte: the length of the sequence it
    announces and the range accepted for the second byte; [None] for a
    byte that cannot start a multi-byte sequence. *)
Definition first (b : N) : option (nat * N * N) :=
  (if b <? 194 then None
   else if b <? 224 then Some (2%nat, 128, 191)
   else if b =? 224 then Some (3%nat, 160, 191)
   else if b <? 237 then Some (3%nat, 128, 191)
   else if b =? 237 then Some (3%nat, 128, 159)
   else if b <? 240 then Some (3%nat, 128, 191)
   else if b =? 240 then Some (4%nat, 144, 191)
   else if b <? 244 then Some (4%nat, 128, 191)
   else if b =? 244 then Some (4%nat, 128, 143)
   else None)%N.

(** [utf8.DecodeRuneInString]: the first rune of [s] and its width in
    bytes; [(RuneError, 1)] for an invalid or truncated encoding and
    [(RuneError, 0)] for the empty string. *)
Definition DecodeRuneInString (s : string) : N * nat :=
  match byteAt s 0 with
  | None => (RuneError, 0%nat)
  | Some s0 =>
    if (s0 <? RuneSelf)%N then (s0, 1%nat)
    else
      match first s0 with
      | None => (RuneError, 1%nat)
      | Some (sz, lo, hi) =>
        match byteAt s 1 with
        | None => (RuneError, 1%nat)
        | Some s1 =>
          if negb ((lo <=? s1) && (s1 <=? hi))%N then (RuneError, 1%nat)
          else if (sz <=? 2)%nat
          then (N.lor (N.shiftl (N.land s0 31) 6) (N.land s1 63), 2%nat)
          else
            match byteAt s 2 with
            | None => (RuneError, 1%nat)
            | Some s2 =>
              if negb (continuation s2) then (RuneError, 1%nat)
              else if (sz <=? 3)%nat
              then (N.lor (N.shiftl (N.land s0 15) 12)
                      (N.lor (N.shiftl (N.land s1 63) 6) (N.land s2 63)), 3%nat)
              else
                match byteAt s 3 with
                | None => (RuneError, 1%nat)
                | Some s3 =>
                  if negb (continuation s3) then (RuneError, 1%nat)
                  else (N.lor (N.shiftl (N.land s0 7) 18)
                          (N.lor (N.shiftl (N.land s1 63) 12)
                             (N.lor (N.shiftl (N.land s2 63) 6) (N.land s3 63))),
                        4%nat)
                end
            end
        end
      end
  end.

End utf8.

(** ** encoding/json: values and the encoder *)
Module json.

(** A JSON document.  Object members keep their order: the encoder emits
    struct fields in declaration order and map keys sorted. *)
Inductive Value : Type :=
| Null
| Bool (b : bool)
| Number (literal : string)
| String_ (s : string)
| Array (elems : list Value)
| Object (members : list (string * Value)).

Definition hex (n : N) : ascii :=
  match String.get (N.to_nat n) "0123456789abcdef" with
  | Some c => c
  | None => "0"%char
  end.

(** [htmlSafeSet]: the ASCII bytes the encoder copies unchanged. *)
Definition htmlSafeSet (b : N) : bool :=
  ((32 <=? b) && (b <? 128)
   && negb (b =? 34) && negb (b =? 38) && negb (b =? 60)
   && negb (b =? 62) && negb (b =? 92))%N.

(** The escape written for an ASCII byte outside [htmlSafeSet]. *)
Definition escapeByte (b : N) : string :=
  let bs := String backslash in
  (if (b =? 92) || (b =? 34) then bs (String (ascii_of_N b) "")
   else if b =? 8 then bs "b"
   else if b =? 12 then bs "f"
   else if b =? 10 then bs "n"
   else if b =? 13 then bs "r"
   else if b =? 9 then bs "t"
   else bs (String "u" (String "0" (String "0"
          (String (hex (N.shiftr b 4)) (String (hex (N.land b 15)) ""))))))%N.

(** The body of [appendString]'s loop with [escapeHTML] set.  Go advances
    an index by the width of the rune it decoded; here [copy] counts the
    trailing bytes of the current rune still to be copied unchanged and
    [drop] those already replaced by an escape. *)
Fixpoint appendStringLoop (copy drop : nat) (src : string) : string :=
  match src with
  | EmptyString => EmptyString
  | String b rest =>
    match copy, drop with
    | S k, _ => String b (appendStringLoop k drop rest)
    | O, S k => appendStringLoop O k rest
    | O, O =>
      let n := N_of_ascii b in
      if (n <? utf8.RuneSelf)%N then
        if htmlSafeSet n then String b (appendStringLoop 0 0 rest)
        else escapeByte n ++ appendStringLoop 0 0 rest
      else
        let '(c, size) := utf8.DecodeRuneInString src in
        if (c =? utf8.RuneError)%N && (size =? 1)%nat
        then String backslash "ufffd" ++ appendStringLoop 0 0 rest
        else if (c =? 8232)%N || (c =? 8233)%N
        then String backslash "u202" ++ String (hex (N.land c 15)) ""
               ++ appendStringLoop 0 (size - 1) rest
        else String b (appendStringLoop (size - 1) 0 rest)
    end
  end.

Definition appendString (src : string) : string :=
  String dquote (appendStringLoop 0 0 src) ++ String dquote "".

(** The compact text of a value, as [json.Marshal] writes it. *)
Fixpoint encode (v : Value) : string :=
  match v with
  | Null => "null"
  | Bool true => "true"
  | Bool false => "false"
  | Number literal => literal
  | String_ s => appendString s
  | Array elems => "[" ++ String.concat "," (map encode elems) ++ "]"
  | Object members =>
    "{" ++ String.concat ","
             (map (fun kv => match kv with
                             | (k, x) => appendString k ++ ":" ++ encode x
                             end) members) ++ "}"
  end.

(** Struct fields: a slice or string field tagged [omitempty] is left out
    when its length is zero; a struct-typed field is never empty, tagged
    or not. *)
Definition slice {A} (enc : A -> Value) (l : list A) : Value :=
  Array (map enc l).

Definition omitemptySlice {A} (key : string) (enc : A -> Value) (l : list A)
  : list (string * Value) :=
  match l with
  | [] => []
  | _ :: _ => [(key, slice enc l)]
  end.

Definition omitemptyString (key : string) (s : string) : list (string * Value) :=
  match s with
  | EmptyString => []
  | String _ _ => [(key, String_ s)]
  end.

(** Member lookup in an object: the first member with the key. *)
Fixpoint lookup (key : string) (members : list (string * Value)) : option Value :=
  match members with
  | [] => None
  | (k, v) :: tl => if String.eqb k key then Some v else lookup key tl
  end.

Definition member (key : string) (doc : Value) : option Value :=
  match doc with
  | Object members => lookup key members
  | _ => None
  end.

(** [json.Marshal] of a [map[string]string]: the keys sorted. *)
Definition marshalStringMap (m : list (string * string)) : Value :=
  Object (map (fun kv => (fst kv, String_ (snd kv))) (sortByKey m)).

(** *** Decoding into a struct *)

Definition kind (v : Value) : string :=
  match v with
  | Null => "null"
  | Bool _ => "bool"
  | Number _ => "number"
  | String_ _ => "string"
  | Array _ => "array"
  | Object _ => "object"
  end.

(** The error of a value that does not fit the Go type it is decoded
    into. *)
Definition UnmarshalTypeError (v : Value) : error :=
  Foreign "json.UnmarshalTypeError" (kind v).

(** Case folding of member names: ASCII letters to upper case, and the
    two non-ASCII runes that fold to an ASCII letter, U+017F (bytes C5 BF)
    to S and U+212A (bytes E2 84 AA) to K.  Other non-ASCII bytes are
    kept; Go maps their runes to the least rune of the fold orbit, which
    is not ASCII either, so comparing with the folded name of a field
    whose name is ASCII gives the same answer. *)
Fixpoint foldName (s : string) : string :=
  match s with
  | EmptyString => EmptyString
  | String b rest =>
    let n := N_of_ascii b in
    if ((97 <=? n) && (n <=? 122))%N
    then String (ascii_of_N (n - 32)) (foldName rest)
    else
      match rest with
      | String b1 r1 =>
        if ((n =? 197) && (N_of_ascii b1 =? 191))%N
        then String "S" (foldName r1)
        else
          match r1 with
          | String b2 r2 =>
            if ((n =? 226) && (N_of_ascii b1 =? 132) && (N_of_ascii b2 =? 170))%N
            then String "K" (foldName r2)
            else String b (foldName rest)
          | EmptyString => String b (foldName rest)
          end
      | EmptyString => String b EmptyString
      end
  end.

(** A member is stored in the field whose name it equals, or else equals
    under case folding. *)
Definition matchesField (key name : string) : bool :=
  String.eqb key name || String.eqb (foldName key) (foldName name).

Definition firstError (saved : option error) (e : error) : option error :=
  match saved with
  | Some _ => saved
  | None => Some e
  end.

(** The members of an object decoded, in order, into a struct whose only
    field is a string named [name]: a string is stored, [null] leaves the
    field alone, any other value is recorded as an error and skipped; the
    first error recorded is the one returned. *)
Fixpoint decodeStringField (name : string) (members : list (string * Value))
         (field : string) (saved : option error) : string * option error :=
  match members with
  | [] => (field, saved)
  | (k, v) :: tl =>
    if matchesField k name then
      match v with
      | String_ s => decodeStringField name tl s saved
      | Null => decodeStringField name tl field saved
      | _ => decodeStringField name tl field (firstError saved (UnmarshalTypeError v))
      end
    else decodeStringField name tl field saved
  end.

(** A Go value of type [interface{}] as the decoder makes it: nil, a bool,
    a float64, a string, a slice or a map.  A map has one entry per key;
    it is kept with its keys sorted.  The type [float64] and the
    conversion of a number are parameters of the decoder. *)
Inductive Any (float64 : Type) : Type :=
| ANil
| ABool (b : bool)
| AFloat (f : float64)
| AString (s : string)
| ASlice (elems : list (Any float64))
| AMap (entries : list (string * Any float64)).
Arguments ANil {float64}.
Arguments ABool {float64} b.
Arguments AFloat {float64} f.
Arguments AString {float64} s.
Arguments ASlice {float64} elems.
Arguments AMap {float64} entries.

Section Interface.

(** [strconv.ParseFloat] at 64 bits on a JSON number: [None] when the
    number is out of the range of float64. *)
Variable float64 : Type.
Variable ParseFloat : string -> option float64.

(** [valueInterface]: a number that does not convert is left nil, and a
    later member of an object replaces an earlier one with the same key. *)
Fixpoint valueInterface (v : Value) : Any float64 :=
  match v with
  | Null => ANil
  | Bool b => ABool b
  | Number literal =>
    match ParseFloat literal with
    | Some f => AFloat f
    | None => ANil
    end
  | String_ s => AString s
  | Array elems => ASlice (map valueInterface elems)
  | Object members =>
    AMap (sortByKey
            ((fix entries (l : list (string * Value)) (m : list (string * Any float64))
                : list (string * Any float64) :=
                match l with
                | [] => m
                | (k, x) :: tl => entries tl (mapSet m k (valueInterface x))
                end) members []))
  end.

(** The error the decoder records while it makes such a value: that of
    the first number, in the order of the text, that does not convert. *)
Fixpoint conversionError (v : Value) : option error :=
  match v with
  | Number literal =>
    match ParseFloat literal with
    | Some _ => None
    | None => Some (Foreign "json.UnmarshalTypeError" ("number " ++ literal))
    end
  | Array elems =>
    (fix first (l : list Value) : option error :=
       match l with
       | [] => None
       | x :: tl =>
         match conversionError x with
         | Some e => Some e
         | None => first tl
         end
       end) elems
  | Object members =>
    (fix first (l : list (string * Value)) : option error :=
       match l with
       | [] => None
       | (_, x) :: tl =>
         match conversionError x with
         | Some e => Some e
         | None => first tl
         end
       end) members
  | _ => None
  end.

(** The members of an object decoded, in order, into a struct whose only
    field is a slice of [interface{}] named [name]; the nil slice is
    [None].  An array is stored element by element, the empty array as the
    empty slice; [null] stores the nil slice; any other value is an error.
    Go decodes the members that follow an error as well, but returns the
    first error recorded; the result is that error, and the struct of a
    failed decoding is not part of the result. *)
Fixpoint decodeSliceField (name : string) (members : list (string * Value))
         (field : option (list (Any float64)))
  : option (list (Any float64)) + error :=
  match members with
  | [] => inl field
  | (k, v) :: tl =>
    if matchesField k name then
      match v with
      | Array elems =>
        match conversionError v with
        | Some e => inr e
        | None => decodeSliceField name tl (Some (map valueInterface elems))
        end
      | Null => decodeSliceField name tl None
      | _ => inr (UnmarshalTypeError v)
      end
    else decodeSliceField name tl field
  end.

End Interface.

(** [Decoder.Decode] into a pointer to such a struct.  The stream is
    given by what the decoder's scanner makes of it: the first JSON value
    it holds, or the error met while reading it. *)
Definition Stream : Type := (Value + error)%type.

Definition DecodeStruct {F} (fields : list (string * Value) -> F * option error)
           (zero : F) (body : Stream) : F * option error :=
  match body with
  | inr e => (zero, Some e)
  | inl (Object members) => fields members
  | inl Null => (zero, None)
  | inl v => (zero, Some (UnmarshalTypeError v))
  end.

(** The same, with the value of the struct or the error as the result. *)
Definition DecodeResult {F} (fields : list (string * Value) -> F + error)
           (zero : F) (body : Stream) : F + error :=
  match body with
  | inr e => inr e
  | inl (Object members) => fields members
  | inl Null => inl zero
  | inl v => inr (UnmarshalTypeError v)
  end.

End json.

(** ** net/url *)
Module url.

Definition upperhex (n : N) : ascii :=
  match String.get (N.to_nat n) "0123456789ABCDEF" with
  | Some c => c
  | None => "0"%char
  end.

(** [shouldEscape] in mode [encodeQueryComponent]: everything but
    letters, digits and [-_.~]. *)
Definition shouldEscape (c : N) : bool :=
  negb (((97 <=? c) && (c <=? 122)) || ((65 <=? c) && (c <=? 90))
        || ((48 <=? c) && (c <=? 57))
        || (c =? 45) || (c =? 95) || (c =? 46) || (c =? 126))%N.

Fixpoint QueryEscape (s : string) : string :=
  match s with
  | EmptyString => EmptyString
  | String b rest =>
    let c := N_of_ascii b in
    if shouldEscape c then
      if (c =? 32)%N then String "+" (QueryEscape rest)
      else String "%" (String (upperhex (N.shiftr c 4))
                        (String (upperhex (N.land c 15)) (QueryEscape rest)))
    else String b (QueryEscape rest)
  end.

(** [url.URL], with the fields a parsed base URL carries. *)
Record URL : Type := Build {
  Scheme : string;
  Host : string;
  Path : string;
  RawQuery : string;
  Fragment : string
}.

Definition setPath (u : URL) (p : string) : URL :=
  Build (Scheme u) (Host u) p (RawQuery u) (Fragment u).
Definition setRawQuery (u : URL) (rq : string) : URL :=
  Build (Scheme u) (Host u) (Path u) rq (Fragment u).

(** [url.Values] *)
Definition Values : Type := list (string * list string).

Definition Set_ (v : Values) (key value : string) : Values :=
  mapSet v key [value].

Definition Add (v : Values) (key value : string) : Values :=
  mapSet v key (match mapGet v key with
                | Some vs => (vs ++ [value])%list
                | None => [value]
                end).

(** [Values.Encode]: [key=value] pairs joined by [&], keys sorted, keys
    and values escaped. *)
Fixpoint joinPairs (pairs : list (string * string)) : string :=
  match pairs with
  | [] => ""
  | [(k, v)] => k ++ "=" ++ v
  | (k, v) :: tl => k ++ "=" ++ v ++ "&" ++ joinPairs tl
  end.

Definition Encode (v : Values) : string :=
  joinPairs
    (flat_map (fun kvs => map (fun x => (QueryEscape (fst kvs), QueryEscape x)) (snd kvs))
              (sortByKey v)).

End url.

(** ** net/http *)
Module http.

Definition MethodGet := "GET".
Definition MethodPost := "POST".
Definition StatusOK : Z := 200.
Definition StatusCreated : Z := 201.
Definition StatusUnauthorized : Z := 401.
Definition StatusInternalServerError : Z := 500.

Definition Header : Type := list (string * string).
Definition Header_Set (h : Header) (key value : string) : Header :=
  mapSet h key value.
Definition Header_Get (h : Header) (key : string) : option string :=
  mapGet h key.

(** A request as the transport receives it.  [Body] is what the reader
    given to [http.NewRequestWithContext] holds at that moment, [None] for
    a nil reader: for a [*bytes.Buffer] the constructor takes the content
    length from the unread part of the buffer and the body is read from the
    buffer itself. *)
Module Request.
Record t : Type := Build {
  Method : string;
  URL : string;
  Header_ : Header;
  Body : option string
}.
Definition setHeader (r : t) (key value : string) : t :=
  Build (Method r) (URL r) (Header_Set (Header_ r) key value) (Body r).
End Request.

Module Response.
Record t : Type := Build {
  StatusCode : Z;
  Body : json.Stream
}.
End Response.

(** What [Client.Do] returns: a response, or an error (with which a
    response comes only when a redirect check failed). *)
Inductive Result : Type :=
| Ok (resp : Response.t)
| Err (resp : option Response.t) (err : error).

(** One call of [Client.Do]. *)
Record Exchange : Type := Sent {
  request : Request.t;
  reply : Result
}.

End http.

(** ** concept.go *)

Definition TypePerson := "http://www.ft.com/ontology/person/Person".
Definition ConceptSchemaPerson :=
  "http://www.ft.com/thing/ConceptScheme/8e564c83-669c-48d5-a208-81fb88a32802".

(** The other concept types and concept schemes of concept.go. *)
Definition TypeTopic := "http://www.ft.com/ontology/Topic".
Definition TypeOrganisation := "http://www.ft.com/ontology/organisation/Organisation".
Definition TypeLocation := "http://www.ft.com/ontology/Location".
Definition TypeGenre := "http://www.ft.com/ontology/Genre".
Definition TypeBrand := "http://www.ft.com/ontology/product/Brand".
Definition ConceptSchemaTopic := "http://www.ft.com/ontology/scheme/Topics".
Definition ConceptSchemaOrganisation := "http://www.ft.com/ontology/scheme/Organisations".
Definition ConceptSchemaLocation :=
  "http://www.ft.com/thing/ConceptScheme/ae342e72-e8a3-41e4-aaf4-180506750948".
Definition ConceptSchemaGenre :=
  "http://www.ft.com/ontology/scheme/9639ccc7-e58e-403f-b80a-88e915a98804".
Definition ConceptSchemaBrand := "http://www.ft.com/ontology/scheme/Brands".
Definition ConceptSchemaAuthor := "http://www.ft.com/ontology/scheme/Authors".

(** Modelled from the spec: the field [Broader] of [Concept].
    [CreateConcept] reads [concept.Broader], but the declaration of [Concept]
    in concept.go has no such field; the specification describes it as a
    broader-concept URI that validation accepts in place of the scheme and
    that serialization never uses.  The other fields are those of
    concept.go.  [Type] is a keyword, hence [Type_]. *)
Module Concept.
Record t : Type := Build {
  PrefLabel : string;
  AltLabels : list string;
  Description : string;
  Type_ : string;
  SchemaObject : string;
  Broader : string;
  TMEIdentifier : string;
  FactsetIdentifier : string;
  WikidataIdentifier : string;
  IsDeprecated : bool
}.
End Concept.

Module conceptValue.
Record t : Type := Build { Value : string }.
Definition marshal (v : t) : json.Value :=
  json.Object [("@value", json.String_ (Value v))].
End conceptValue.

Module wordValue.
Record t : Type := Build { Value : string; Language : string }.
Definition marshal (v : t) : json.Value :=
  json.Object ([("@value", json.String_ (Value v))]
               ++ json.omitemptyString "@language" (Language v)).
End wordValue.

Module uriValue.
Record t : Type := Build { Value : string; Type_ : string }.
Definition marshal (v : t) : json.Value :=
  json.Object [("@value", json.String_ (Value v));
               ("@type", json.String_ (Type_ v))].
End uriValue.

Module conceptID.
Record t : Type := Build { ID : string }.
Definition marshal (v : t) : json.Value :=
  json.Object [("@id", json.String_ (ID v))].
End conceptID.

Module conceptLabel.
Record t : Type := Build { LiteralForm : list wordValue.t; Type_ : list string }.
Definition marshal (v : t) : json.Value :=
  json.Object (json.omitemptySlice "skosxl:literalForm" wordValue.marshal (LiteralForm v)
               ++ json.omitemptySlice "@type" json.String_ (Type_ v)).
End conceptLabel.

(** [inputConcept] is the helper struct matching the input format of the
    Smartlogic API; [marshal] is what [json.Marshal] does with its tags. *)
Module inputConcept.
Record t : Type := Build {
  PrefLabel : list conceptLabel.t;
  AltLabels : list conceptLabel.t;
  Description : list wordValue.t;
  Type_ : list string;
  TopConceptOf : conceptID.t;
  TMEIdentifier : list conceptValue.t;
  FactsetIdentifier : list conceptValue.t;
  WikidataIdentifier : list uriValue.t;
  IsDeprecated : list bool
}.

(** Assignments to single fields. *)
Definition setAltLabels (v : t) (x : list conceptLabel.t) : t :=
  Build (PrefLabel v) x (Description v) (Type_ v) (TopConceptOf v)
    (TMEIdentifier v) (FactsetIdentifier v) (WikidataIdentifier v) (IsDeprecated v).
Definition setDescription (v : t) (x : list wordValue.t) : t :=
  Build (PrefLabel v) (AltLabels v) x (Type_ v) (TopConceptOf v)
    (TMEIdentifier v) (FactsetIdentifier v) (WikidataIdentifier v) (IsDeprecated v).
Definition setTMEIdentifier (v : t) (x : list conceptValue.t) : t :=
  Build (PrefLabel v) (AltLabels v) (Description v) (Type_ v) (TopConceptOf v)
    x (FactsetIdentifier v) (WikidataIdentifier v) (IsDeprecated v).
Definition setFactsetIdentifier (v : t) (x : list conceptValue.t) : t :=
  Build (PrefLabel v) (AltLabels v) (Description v) (Type_ v) (TopConceptOf v)
    (TMEIdentifier v) x (WikidataIdentifier v) (IsDeprecated v).
Definition setWikidataIdentifier (v : t) (x : list uriValue.t) : t :=
  Build (PrefLabel v) (AltLabels v) (Description v) (Type_ v) (TopConceptOf v)
    (TMEIdentifier v) (FactsetIdentifier v) x (IsDeprecated v).
Definition setIsDeprecated (v : t) (x : list bool) : t :=
  Build (PrefLabel v) (AltLabels v) (Description v) (Type_ v) (TopConceptOf v)
    (TMEIdentifier v) (FactsetIdentifier v) (WikidataIdentifier v) x.

(** The members [json.Marshal] writes, in field order, following the
    struct tags. *)
Definition members (v : t) : list (string * json.Value) :=
  json.omitemptySlice "skosxl:prefLabel" conceptLabel.marshal (PrefLabel v)
  ++ json.omitemptySlice "skosxl:altLabel" conceptLabel.marshal (AltLabels v)
  ++ json.omitemptySlice "http://www.ft.com/ontology/description"
       wordValue.marshal (Description v)
  ++ json.omitemptySlice "@type" json.String_ (Type_ v)
  ++ [("skos:topConceptOf", conceptID.marshal (TopConceptOf v))]
  ++ json.omitemptySlice "http://www.ft.com/ontology/TMEIdentifier"
       conceptValue.marshal (TMEIdentifier v)
  ++ json.omitemptySlice "http://www.ft.com/ontology/factsetIdentifier"
       conceptValue.marshal (FactsetIdentifier v)
  ++ json.omitemptySlice "http://www.ft.com/ontology/wikidataIdentifier"
       uriValue.marshal (WikidataIdentifier v)
  ++ json.omitemptySlice "http://www.ft.com/ontology/isDeprecated"
       json.Bool (IsDeprecated v).

Definition marshal (v : t) : json.Value := json.Object (members v).
End inputConcept.

(** The label wrapper built for the preferred label and for each alternate
    label. *)
Definition label (s : string) : conceptLabel.t :=
  conceptLabel.Build [wordValue.Build s "en"] ["skosxl:Label"].

(** The struct that [Concept.MarshalJSON] fills in, assignment by
    assignment, before handing it to [json.Marshal]. *)
Definition toInputConcept (c : Concept.t) : inputConcept.t :=
  let input :=
    inputConcept.Build
      [label (Concept.PrefLabel c)]
      []
      []
      ["skos:Concept"; Concept.Type_ c]
      (conceptID.Build (Concept.SchemaObject c))
      [] [] [] [] in
  let input :=
    if negb (String.eqb (Concept.Description c) "")
    then inputConcept.setDescription input [wordValue.Build (Concept.Description c) "en"]
    else input in
  let input :=
    fold_left
      (fun input al =>
         inputConcept.setAltLabels input (inputConcept.AltLabels input ++ [label al]))
      (Concept.AltLabels c) input in
  let input :=
    if negb (String.eqb (Concept.TMEIdentifier c) "")
    then inputConcept.setTMEIdentifier input [conceptValue.Build (Concept.TMEIdentifier c)]
    else input in
  let input :=
    if negb (String.eqb (Concept.FactsetIdentifier c) "")
    then inputConcept.setFactsetIdentifier input
           [conceptValue.Build (Concept.FactsetIdentifier c)]
    else input in
  let input :=
    if negb (String.eqb (Concept.WikidataIdentifier c) "")
    then inputConcept.setWikidataIdentifier input
           [uriValue.Build (Concept.WikidataIdentifier c) "xsd:anyURI"]
    else input in
  let input :=
    if Concept.IsDeprecated c
    then inputConcept.setIsDeprecated input [Concept.IsDeprecated c]
    else input in
  input.

(** [json.Marshal] of an [inputConcept]: every field is a string, a bool, a
    slice or a struct of those, so the encoder has no failing case. *)
Definition json_Marshal_inputConcept (input : inputConcept.t)
  : string * option error :=
  (json.encode (inputConcept.marshal input), None).

(** The document a Concept is serialized to, before it is written out. *)
Definition wireDocument (c : Concept.t) : json.Value :=
  inputConcept.marshal (toInputConcept c).

Definition MarshalJSON (c : Concept.t) : string * option error :=
  json_Marshal_inputConcept (toInputConcept c).


(** [json.Marshal] of a [Concept] calls its [MarshalJSON] and compacts the
    result, which is compact already. *)
Definition json_Marshal_Concept (c : Concept.t) : string * option error :=
  MarshalJSON c.

(** ** client.go *)

Definition MaxAccessFailures : nat := 3.
Definition ConceptURIPrefix := "http://www.ft.com/thing".
Definition MetadataFieldPrefix := "http://www.ft.com/ontology".

(** The fields of [Client] other than [httpClient]; the HTTP client is the
    transport the methods below are given. *)
Record Client : Type := BuildClient {
  baseAPIURL : url.URL;
  apiTokenURL : url.URL;
  apiKey : string;
  model : string;
  accessToken : string
}.

Definition setAccessToken (c : Client) (token : string) : Client :=
  BuildClient (baseAPIURL c) (apiTokenURL c) (apiKey c) (model c) token.

(** A method runs on the client it is called on and on the exchanges made
    over the transport so far; it returns or panics. *)
Record State : Type := BuildState {
  self : Client;
  history : list http.Exchange
}.

Inductive Outcome (A : Type) : Type :=
| Returns (a : A)
| Panics (reason : string).
Arguments Returns {A} a.
Arguments Panics {A} reason.

Definition Exec (A : Type) : Type := State -> Outcome A * State.

Definition ret {A} (a : A) : Exec A := fun st => (Returns a, st).

Definition panic {A} (reason : string) : Exec A := fun st => (Panics reason, st).

Definition bind {A B} (m : Exec A) (k : A -> Exec B) : Exec B :=
  fun st =>
    match m st with
    | (Returns a, st') => k a st'
    | (Panics reason, st') => (Panics reason, st')
    end.

Notation "x <- m ;; k" := (bind m (fun x => k))
  (at level 61, m at next level, right associativity).

Definition getSelf : Exec Client := fun st => (Returns (self st), st).

Definition putAccessToken (token : string) : Exec unit :=
  fun st => (Returns tt, BuildState (setAccessToken (self st) token) (history st)).

Definition nilDereference := "invalid memory address or nil pointer dereference".

(** An empty method stands for GET. *)
Definition requestMethod (method : string) : string :=
  if String.eqb method "" then "GET" else method.

Section ClientMethods.

(** [path.Join] and [URL.String] of the standard library. *)
Variable path_Join : list string -> string.
Variable URL_String : url.URL -> string.

(** The error with which [http.NewRequestWithContext] rejects a method or
    a URL, if it does. *)
Variable NewRequestError : string -> string -> option error.

(** The HTTP client and the servers behind it: the result of [Do] for a
    request, given the exchanges made before, and the number of bytes of
    the request body that it read from the reader while sending (all of
    them, for a transport that sent the whole request). *)
Variable Transport : list http.Exchange -> http.Request.t -> http.Result * nat.

(** The type float64 and [strconv.ParseFloat], for the JSON decoder. *)
Variable float64 : Type.
Variable ParseFloat : string -> option float64.

Definition NewRequestWithContext (method url : string) (body : option string)
  : http.Request.t + error :=
  let method := requestMethod method in
  match NewRequestError method url with
  | Some err => inr err
  | None => inl (http.Request.Build method url [] body)
  end.

Definition Do (req : http.Request.t) : Exec (http.Result * nat) :=
  fun st =>
    let r := Transport (history st) req in
    (Returns r, BuildState (self st) (history st ++ [http.Sent req (fst r)])).

(** The anonymous struct [tokenResp] has the one field [AccessToken],
    tagged [access_token]. *)
Definition decodeTokenResp (body : json.Stream) : string * option error :=
  json.DecodeStruct
    (fun members => json.decodeStringField "access_token" members "" None) "" body.

Definition tokenRequestBody (c : Client) : string :=
  url.Encode (url.Set_ (url.Set_ [] "grant_type" "apikey") "key" (apiKey c)).

Definition getAccessToken : Exec (string * option error) :=
  c <- getSelf ;;
  match NewRequestWithContext http.MethodPost (URL_String (apiTokenURL c))
          (Some (tokenRequestBody c)) with
  | inr _ =>
    (* the header is set on the nil request before the error is looked at *)
    panic nilDereference
  | inl req =>
    let req := http.Request.setHeader req
                 "Content-Type" "application/x-www-form-urlencoded" in
    r <- Do req ;;
    match fst r with
    | http.Err _ err =>
      ret ("", Some (fmt_Errorf "failed making access token request: %w" [ArgError err]))
    | http.Ok resp =>
      if negb (http.Response.StatusCode resp =? http.StatusOK)%Z
      then ret ("", Some (fmt_Errorf "access token request returned http status %v"
                            [ArgInt (http.Response.StatusCode resp)]))
      else
        match decodeTokenResp (http.Response.Body resp) with
        | (_, Some err) =>
          ret ("", Some (fmt_Errorf "failed decoding access token in response body: %w"
                           [ArgError err]))
        | (token, None) => ret (token, None)
        end
    end
  end.

(** The loop of [makeAuthorizedRequest], with [remaining] standing for
    [MaxAccessFailures - accessFailures].  [body] is the reader shared by
    all iterations: what the transport has read of it is gone. *)
Fixpoint authorizedLoop (remaining : nat) (method url : string)
         (body : option string) : Exec (option http.Response.t * option error) :=
  match remaining with
  | O => ret (None, Some (errors_New "failed making request with valid access token"))
  | S remaining' =>
    c <- getSelf ;;
    match NewRequestWithContext method url body with
    | inr err =>
      ret (None, Some (fmt_Errorf "failed creating authorized request: %w" [ArgError err]))
    | inl req =>
      let req := http.Request.setHeader req "Authorization" ("Bearer " ++ accessToken c) in
      let req := http.Request.setHeader req "Content-Type" "application/ld+json" in
      r <- Do req ;;
      let body := option_map (skip (snd r)) body in
      match fst r with
      | http.Err resp err =>
        ret (resp, Some (fmt_Errorf "failed making authorized request: %w" [ArgError err]))
      | http.Ok resp =>
        if (http.Response.StatusCode resp =? http.StatusUnauthorized)%Z
        then
          t <- getAccessToken ;;
          match t with
          | (_, Some _) =>
            ret (None, Some (errors_New "failed making request with valid access token"))
          | (token, None) =>
            _ <- putAccessToken token ;;
            authorizedLoop remaining' method url body
          end
        else ret (Some resp, None)
      end
    end
  end.

Definition makeAuthorizedRequest (method url : string) (body : option string)
  : Exec (option http.Response.t * option error) :=
  authorizedLoop MaxAccessFailures method url body.

Definition NewClient (baseCloudURL : url.URL) (clientID apiKey model : string)
           (h : list http.Exchange)
  : Outcome (option Client * option error) * list http.Exchange :=
  let baseAPIURL :=
    url.setPath baseCloudURL
      (path_Join [url.Path baseCloudURL; "/sw/client/" ++ clientID ++ "/api"]) in
  let apiTokenURL :=
    url.setPath baseCloudURL (path_Join [url.Path baseCloudURL; "token"]) in
  let client := BuildClient baseAPIURL apiTokenURL apiKey model "" in
  match getAccessToken (BuildState client h) with
  | (Panics reason, st) => (Panics reason, history st)
  | (Returns (_, Some err), st) => (Returns (None, Some err), history st)
  | (Returns (token, None), st) =>
    (Returns (Some (setAccessToken (self st) token), None), history st)
  end.

(** What an operation does with the outcome of the authorized request
    when it only looks at the status. *)
Definition isSuccess (status : Z) : bool :=
  ((status =? http.StatusOK) || (status =? http.StatusCreated))%Z.

Definition CreateConcept (concept : Concept.t) (task : string) : Exec (option error) :=
  if String.eqb (Concept.PrefLabel concept) ""
  then ret (Some (errors_New "input concept should have prefLaber defined"))
  else if String.eqb (Concept.SchemaObject concept) ""
          && String.eqb (Concept.Broader concept) ""
  then ret (Some (errors_New
                    "input concept should have either schema or broader relation defined"))
  else if String.eqb (Concept.Type_ concept) ""
  then ret (Some (errors_New "input concept should have type defined"))
  else
    c <- getSelf ;;
    let reqURL := baseAPIURL c in
    let path := "task:" ++ model c ++ ":" ++ task ++ "/skos:Concept/rdf:instance" in
    let reqURL := url.setRawQuery reqURL ("path=" ++ path) in
    match json_Marshal_Concept concept with
    | (_, Some err) =>
      ret (Some (fmt_Errorf "failed json encoding concept: %w" [ArgError err]))
    | (body, None) =>
      r <- makeAuthorizedRequest http.MethodPost (URL_String reqURL) (Some body) ;;
      match r with
      | (_, Some err) =>
        ret (Some (fmt_Errorf "failed creating new concept: %v" [ArgError err]))
      | (None, None) => panic nilDereference
      | (Some resp, None) =>
        if negb (isSuccess (http.Response.StatusCode resp))
        then ret (Some (fmt_Errorf "failed creating new concept, returned status %v"
                          [ArgInt (http.Response.StatusCode resp)]))
        else ret None
      end
    end.

Definition AddConceptMetadataField (conceptID fieldName fieldValue task : string)
  : Exec (option error) :=
  c <- getSelf ;;
  let reqURL := baseAPIURL c in
  let conceptURI := ConceptURIPrefix ++ "/" ++ conceptID in
  let encodedConceptURI :=
    url.QueryEscape (url.QueryEscape ("<" ++ conceptURI ++ ">")) in
  let path := "task:" ++ model c ++ ":" ++ task ++ "/" ++ encodedConceptURI in
  let reqURL := url.setRawQuery reqURL ("path=" ++ path) in
  let fieldURI := MetadataFieldPrefix ++ "/" ++ fieldName in
  let bodyMap := mapSet (mapSet [] "@id" conceptURI) fieldURI fieldValue in
  let body := json.encode (json.marshalStringMap bodyMap) in
  r <- makeAuthorizedRequest http.MethodPost (URL_String reqURL) (Some body) ;;
  match r with
  | (_, Some err) =>
    ret (Some (fmt_Errorf "failed adding metadata to concept %s: %v"
                 [ArgString conceptID; ArgError err]))
  | (None, None) => panic nilDereference
  | (Some resp, None) =>
    if negb (isSuccess (http.Response.StatusCode resp))
    then ret (Some (fmt_Errorf "failed adding metadata to concept %s, returned status %v"
                      [ArgString conceptID; ArgInt (http.Response.StatusCode resp)]))
    else ret None
  end.

(** The anonymous struct [data] has the one field [Graph], tagged
    [@graph]. *)
Definition decodeGraph (body : json.Stream)
  : option (list (json.Any float64)) + error :=
  json.DecodeResult
    (fun members => json.decodeSliceField float64 ParseFloat "@graph" members None)
    None body.

Definition GetConceptsWithCustomMetadata (task field value : string)
  : Exec (option (list (json.Any float64)) * option error) :=
  c <- getSelf ;;
  let params := [] in
  let params :=
    url.Add params "path"
      (path_Join ["task:" ++ model c ++ ":" ++ task;
                  "skos:Concept"; "meta:transitiveInstance"]) in
  let params := url.Add params "properties" "rdf:type,meta:displayName,[]" in
  let params :=
    url.Add params "filters" ("subject(<" ++ field ++ q ">='" ++ value ++ q "')") in
  let reqURL := url.setRawQuery (baseAPIURL c) (url.Encode params) in
  r <- makeAuthorizedRequest http.MethodGet (URL_String reqURL) None ;;
  match r with
  | (_, Some err) =>
    ret (None, Some (fmt_Errorf "failed to make search request: %w" [ArgError err]))
  | (None, None) => panic nilDereference
  | (Some resp, None) =>
    match decodeGraph (http.Response.Body resp) with
    | inr err =>
      ret (None, Some (fmt_Errorf "failed to read search response: %w" [ArgError err]))
    | inl graph => ret (graph, None)
    end
  end.

End ClientMethods.

(** ** Vocabulary of the properties *)

(** A member that stands for nothing: [null], an empty array or an empty
    object. *)
Definition isVoid (v : json.Value) : bool :=
  match v with
  | json.Null | json.Array [] | json.Object [] => true
  | _ => false
  end.

Definition isNil {A} (l : list A) : bool :=
  match l with
  | [] => true
  | _ :: _ => false
  end.

(** The token request is the one sent form-encoded; a data request is sent
    as JSON-LD. *)
Definition isTokenRequest (req : http.Request.t) : bool :=
  match http.Header_Get (http.Request.Header_ req) "Content-Type" with
  | Some v => String.eqb v "application/x-www-form-urlencoded"
  | None => false
  end.

(** The request [getAccessToken] sends for a client, and the request an
    iteration of [makeAuthorizedRequest] sends with a given token when the
    reader holds [body]. *)
Definition tokenRequest (URL_String : url.URL -> string) (c : Client) : http.Request.t :=
  http.Request.Build http.MethodPost (URL_String (apiTokenURL c))
    [("Content-Type", "application/x-www-form-urlencoded")]
    (Some (tokenRequestBody c)).

Definition authorizedRequest (method url : string) (body : option string)
           (token : string) : http.Request.t :=
  http.Request.Build (requestMethod method) url
    [("Authorization", "Bearer " ++ token); ("Content-Type", "application/ld+json")]
    body.

(** The token a reply of the token endpoint grants: the reply has status
    200 and a body that decodes. *)
Definition tokenGranted (r : http.Result) : option string :=
  match r with
  | http.Ok resp =>
    if (http.Response.StatusCode resp =? http.StatusOK)%Z then
      match decodeTokenResp (http.Response.Body resp) with
      | (token, None) => Some token
      | (_, Some _) => None
      end
    else None
  | http.Err _ _ => None
  end.

Definition grantedBy (e : http.Exchange) : option string :=
  if isTokenRequest (http.request e) then tokenGranted (http.reply e) else None.

(** The token stored after a run of exchanges: the one granted last, or
    the one stored before when none was granted. *)
Definition lastGranted (exchanges : list http.Exchange) (stored : string) : string :=
  fold_left (fun token e => match grantedBy e with
                            | Some t => t
                            | None => token
                            end) exchanges stored.

Definition isUnauthorized (r : http.Result) : bool :=
  match r with
  | http.Ok resp => (http.Response.StatusCode resp =? http.StatusUnauthorized)%Z
  | http.Err _ _ => false
  end.

(** The data requests among a run of exchanges. *)
Definition attempts (exchanges : list http.Exchange) : list http.Request.t :=
  map http.request
    (filter (fun e => negb (isTokenRequest (http.request e))) exchanges).

(** The error of a request that could not be made with a valid token. *)
Definition authError : error :=
  errors_New "failed making request with valid access token".

(** ** Fixtures, after the servers of client_test.go *)

(** Joining without cleaning, and the rendering of a URL that has a scheme
    and a host; enough for the paths of the fixtures, which are clean. *)
Definition joinElements (elems : list string) : string :=
  String.concat "/" (filter (fun e => negb (String.eqb e "")) elems).

Definition renderURL (u : url.URL) : string :=
  url.Scheme u ++ "://" ++ url.Host u
  ++ (if String.prefix "/" (url.Path u) then url.Path u else "/" ++ url.Path u)
  ++ (if String.eqb (url.RawQuery u) "" then "" else "?" ++ url.RawQuery u).

Definition acceptAll (method url : string) : option error := None.

Definition testServerURL : url.URL := url.Build "http" "127.0.0.1:8080" "" "" "".

Definition testClient : Client :=
  BuildClient
    (url.setPath testServerURL "/sw/client/testClientID/api")
    (url.setPath testServerURL "token")
    "testAPIKey" "testModel" "test_token".

Definition bodyLength (req : http.Request.t) : nat :=
  match http.Request.Body req with
  | Some b => String.length b
  | None => 0
  end.

Definition tokenReply (token : string) : http.Result :=
  http.Ok (http.Response.Build http.StatusOK
             (inl (json.Object [("access_token", json.String_ token)]))).

Definition statusReply (status : Z) (body : json.Stream) : http.Result :=
  http.Ok (http.Response.Build status body).

Definition emptyBody : json.Stream := inr (Foreign "io" "EOF").

(** A server whose token endpoint works and whose data endpoint answers
    every request with [status] and [body]; the transport sends the whole
    request body. *)
Definition fixedStatusServer (status : Z) (body : json.Stream)
           (h : list http.Exchange) (req : http.Request.t) : http.Result * nat :=
  if isTokenRequest req then (tokenReply "test_token", bodyLength req)
  else (statusReply status body, bodyLength req).

(** A server whose data endpoint answers 401 to the first request and 200
    afterwards, and whose token endpoint grants [fresh_token]. *)
Definition expiredOnceServer (h : list http.Exchange) (req : http.Request.t)
  : http.Result * nat :=
  if isTokenRequest req then (tokenReply "fresh_token", bodyLength req)
  else if isNil (attempts h)
       then (statusReply http.StatusUnauthorized emptyBody, bodyLength req)
       else (statusReply http.StatusOK emptyBody, bodyLength req).

(** A server whose token endpoint answers 401. *)
Definition noTokenServer (h : list http.Exchange) (req : http.Request.t)
  : http.Result * nat :=
  (statusReply http.StatusUnauthorized emptyBody, bodyLength req).

Definition testConcept : Concept.t :=
  Concept.Build "Test Pref Label" [] "" "Test Type" "Test Concept Schema"
    "" "" "" "" false.

(** The token exchanges among a run of exchanges. *)
Definition tokenExchanges (exchanges : list http.Exchange) : list http.Exchange :=
  filter (fun e => isTokenRequest (http.request e)) exchanges.



(** The first request of an operation: the authorized request with the
    stored token, sent to the base API URL with a given raw query. *)
Definition operationRequest (URL_String : url.URL -> string) (c : Client)
           (method rawQuery : string) (body : option string) : http.Request.t :=
  authorizedRequest method (URL_String (url.setRawQuery (baseAPIURL c) rawQuery))
    body (accessToken c).

(** A request constructor that rejects one URL, a transport that cannot
    connect, and a server that answers every request with 200 and the empty
    object. *)
Definition rejectURL (bad : string) (method url : string) : option error :=
  if String.eqb url bad then Some (Foreign "net/url" "invalid URL") else None.

Definition connectionRefused : error := Foreign "net/http" "connection refused".

Definition brokenTransport (h : list http.Exchange) (req : http.Request.t)
  : http.Result * nat :=
  (http.Err None connectionRefused, 0).

Definition emptyObjectServer (h : list http.Exchange) (req : http.Request.t)
  : http.Result * nat :=
  (statusReply http.StatusOK (inl (json.Object [])), bodyLength req).


(** A Concept that passes the checks of [CreateConcept]. *)
Definition validConcept (concept : Concept.t) : Prop :=
  Concept.PrefLabel concept <> ""
  /\ Concept.Type_ concept <> ""
  /\ (Concept.SchemaObject concept <> "" \/ Concept.Broader concept <> "").

(** The raw queries of the three operations. *)
Definition createQuery (c : Client) (task : string) : string :=
  "path=task:" ++ model c ++ ":" ++ task ++ "/skos:Concept/rdf:instance".

Definition metadataQuery (c : Client) (task conceptID : string) : string :=
  "path=task:" ++ model c ++ ":" ++ task ++ "/"
  ++ url.QueryEscape (url.QueryEscape ("<http://www.ft.com/thing/" ++ conceptID ++ ">")).

Definition searchQuery (path_Join : list string -> string) (c : Client)
           (task field value : string) : string :=
  "filters=" ++ url.QueryEscape ("subject(<" ++ field ++ q ">='" ++ value ++ q "')")
  ++ "&path="
  ++ url.QueryEscape (path_Join ["task:" ++ model c ++ ":" ++ task;
                                 "skos:Concept"; "meta:transitiveInstance"])
  ++ "&properties=rdf%3Atype%2Cmeta%3AdisplayName%2C%5B%5D".

(** The body of the metadata request: the concept URI, then the field. *)
Definition metadataBody (conceptID fieldName fieldValue : string) : string :=
  json.encode
    (json.Object
       [("@id", json.String_ ("http://www.ft.com/thing/" ++ conceptID));
        ("http://www.ft.com/ontology/" ++ fieldName, json.String_ fieldValue)]).

(** Between two states: the configuration of the client is the same, the
    history has only grown, and the stored token is the one granted last
    among the new exchanges, if any. *)
Definition onlyTokenRefreshed (st st' : State) : Prop :=
  baseAPIURL (self st') = baseAPIURL (self st)
  /\ apiTokenURL (self st') = apiTokenURL (self st)
  /\ apiKey (self st') = apiKey (self st)
  /\ model (self st') = model (self st)
  /\ exists new,
      history st' = (history st ++ new)%list
      /\ accessToken (self st') = lastGranted new (accessToken (self st)).

(** A stand-in for float64 that keeps the literal of a number. *)
Definition literalFloat : Type := string.
Definition keepLiteral (literal : string) : option literalFloat := Some literal.

Definition testGraphBody : list json.Value :=
  [json.Object [("@id", json.String_ "http://www.ft.com/thing/1")]].

(** The request an operation sends first, written out: the method, the
    rendering of the base API URL with [rawQuery] as its raw query, the
    two headers with the stored token, and the body. *)
Definition requestTo (URL_String : url.URL -> string) (c : Client)
           (method rawQuery : string) (body : option string) : http.Request.t :=
  http.Request.Build method
    (URL_String (url.Build (url.Scheme (baseAPIURL c)) (url.Host (baseAPIURL c))
                   (url.Path (baseAPIURL c)) rawQuery (url.Fragment (baseAPIURL c))))
    [("Authorization", "Bearer " ++ accessToken c);
     ("Content-Type", "application/ld+json")]
    body.

(** A conversion that finds 1e400 out of range. *)
Definition rejectHuge (literal : string) : option literalFloat :=
  if String.eqb literal "1e400" then None else Some literal.

(** The text of the label wrapper of [s], and the texts of the members of
    the serialized Concept, key and value, in the order they are written:
    the five optional members only for a field that is not empty, the
    deprecated member only when IsDeprecated is set. *)
Definition labelText (s : string) : string :=
  q "{'skosxl:literalForm':[{'@value':" ++ json.appendString s
  ++ q ",'@language':'en'}],'@type':['skosxl:Label']}".

Definition memberTexts (c : Concept.t) : list string :=
  List.concat
    [[q "'skosxl:prefLabel':[" ++ labelText (Concept.PrefLabel c) ++ "]"];
     if isNil (Concept.AltLabels c) then []
     else [q "'skosxl:altLabel':["
           ++ String.concat "," (map labelText (Concept.AltLabels c)) ++ "]"];
     if String.eqb (Concept.Description c) "" then []
     else [q "'http://www.ft.com/ontology/description':[{'@value':"
           ++ json.appendString (Concept.Description c)
           ++ q ",'@language':'en'}]"];
     [q "'@type':['skos:Concept'," ++ json.appendString (Concept.Type_ c) ++ "]"];
     [q "'skos:topConceptOf':{'@id':" ++ json.appendString (Concept.SchemaObject c)
      ++ "}"];
     if String.eqb (Concept.TMEIdentifier c) "" then []
     else [q "'http://www.ft.com/ontology/TMEIdentifier':[{'@value':"
           ++ json.appendString (Concept.TMEIdentifier c) ++ "}]"];
     if String.eqb (Concept.FactsetIdentifier c) "" then []
     else [q "'http://www.ft.com/ontology/factsetIdentifier':[{'@value':"
           ++ json.appendString (Concept.FactsetIdentifier c) ++ "}]"];
     if String.eqb (Concept.WikidataIdentifier c) "" then []
     else [q "'http://www.ft.com/ontology/wikidataIdentifier':[{'@value':"
           ++ json.appendString (Concept.WikidataIdentifier c)
           ++ q ",'@type':'xsd:anyURI'}]"];
     if Concept.IsDeprecated c
     then [q "'http://www.ft.com/ontology/isDeprecated':[true]"] else []].

(** * Properties *)

(** ** The wire document of a Concept *)

Lemma altLabels_loop (l : list string) (input : inputConcept.t) :
  fold_left
    (fun input al =>
       inputConcept.setAltLabels input (inputConcept.AltLabels input ++ [label al]))
    l input
  = inputConcept.setAltLabels input (inputConcept.AltLabels input ++ map label l).
Proof.
  revert input.
  induction l as [| al l IH]; intros input.
  - destruct input. cbn. now rewrite app_nil_r.
  - cbn [fold_left map]. rewrite IH. destruct input. cbn.
    now rewrite <- app_assoc.
Qed.

(** The struct handed to the encoder, field by field. *)
Lemma toInputConcept_fields (c : Concept.t) :
  toInputConcept c =
  inputConcept.Build
    [label (Concept.PrefLabel c)]
    (map label (Concept.AltLabels c))
    (if String.eqb (Concept.Description c) "" then []
     else [wordValue.Build (Concept.Description c) "en"])
    ["skos:Concept"; Concept.Type_ c]
    (conceptID.Build (Concept.SchemaObject c))
    (if String.eqb (Concept.TMEIdentifier c) "" then []
     else [conceptValue.Build (Concept.TMEIdentifier c)])
    (if String.eqb (Concept.FactsetIdentifier c) "" then []
     else [conceptValue.Build (Concept.FactsetIdentifier c)])
    (if String.eqb (Concept.WikidataIdentifier c) "" then []
     else [uriValue.Build (Concept.WikidataIdentifier c) "xsd:anyURI"])
    (if Concept.IsDeprecated c then [true] else []).
Proof.
  unfold toInputConcept. rewrite altLabels_loop.
  destruct c as [pl al d ty so br tme fs wd dep]; cbn.
  destruct (String.eqb d ""), (String.eqb tme ""), (String.eqb fs ""),
    (String.eqb wd ""), dep; reflexivity.
Qed.

(** The cases of concept_test.go. *)
Example marshal_minimal_concept :
  MarshalJSON (Concept.Build "Test Person" [] "" TypePerson ConceptSchemaPerson
                 "" "" "" "" false)
  = (q "{'skosxl:prefLabel':[{'skosxl:literalForm':[{'@value':'Test Person','@language':'en'}],'@type':['skosxl:Label']}],'@type':['skos:Concept','http://www.ft.com/ontology/person/Person'],'skos:topConceptOf':{'@id':'http://www.ft.com/thing/ConceptScheme/8e564c83-669c-48d5-a208-81fb88a32802'}}",
     None).
Proof. vm_compute. reflexivity. Qed.

Example marshal_deprecated_concept :
  MarshalJSON (Concept.Build "Test Deprecated Person" [] "" TypePerson ConceptSchemaPerson
                 "" "" "" "" true)
  = (q "{'skosxl:prefLabel':[{'skosxl:literalForm':[{'@value':'Test Deprecated Person','@language':'en'}],'@type':['skosxl:Label']}],'@type':['skos:Concept','http://www.ft.com/ontology/person/Person'],'skos:topConceptOf':{'@id':'http://www.ft.com/thing/ConceptScheme/8e564c83-669c-48d5-a208-81fb88a32802'},'http://www.ft.com/ontology/isDeprecated':[true]}",
     None).
Proof. vm_compute. reflexivity. Qed.

Example marshal_full_concept :
  MarshalJSON (Concept.Build "Test Person All Fields" ["Short Name"] "New test person"
                 TypePerson ConceptSchemaPerson ""
                 "TnN0ZWluX09OX0ZvcnR1bmVDb21wYW55X0FBUEw=-T04=" "000C7F-E"
                 "http://www.wikidata.org/entity/Q312" false)
  = (q "{'skosxl:prefLabel':[{'skosxl:literalForm':[{'@value':'Test Person All Fields','@language':'en'}],'@type':['skosxl:Label']}],'skosxl:altLabel':[{'skosxl:literalForm':[{'@value':'Short Name','@language':'en'}],'@type':['skosxl:Label']}],'http://www.ft.com/ontology/description':[{'@value':'New test person','@language':'en'}],'@type':['skos:Concept','http://www.ft.com/ontology/person/Person'],'skos:topConceptOf':{'@id':'http://www.ft.com/thing/ConceptScheme/8e564c83-669c-48d5-a208-81fb88a32802'},'http://www.ft.com/ontology/TMEIdentifier':[{'@value':'TnN0ZWluX09OX0ZvcnR1bmVDb21wYW55X0FBUEw=-T04='}],'http://www.ft.com/ontology/factsetIdentifier':[{'@value':'000C7F-E'}],'http://www.ft.com/ontology/wikidataIdentifier':[{'@value':'http://www.wikidata.org/entity/Q312','@type':'xsd:anyURI'}]}",
     None).
Proof. vm_compute. reflexivity. Qed.

(** A Concept with only PrefLabel, Type and SchemaObject set: the
    pref-label block, the type list and the scheme reference, in that
    order, and nothing else. *)
Lemma minimal_concept_document (prefLabel type schema broader : string) :
  wireDocument (Concept.Build prefLabel [] "" type schema broader "" "" "" false)
  = json.Object
      [("skosxl:prefLabel",
        json.Array
          [json.Object
             [("skosxl:literalForm",
               json.Array [json.Object [("@value", json.String_ prefLabel);
                                        ("@language", json.String_ "en")]]);
              ("@type", json.Array [json.String_ "skosxl:Label"])]]);
       ("@type", json.Array [json.String_ "skos:Concept"; json.String_ type]);
       ("skos:topConceptOf", json.Object [("@id", json.String_ schema)])].
Proof. reflexivity. Qed.

(** C1: the Concept with PrefLabel "Test Pref Label", Type "Test Type" and
    SchemaObject "Test Concept Schema", every other field unset, is
    serialized to exactly the bytes of the pref-label block, the type list
    and the scheme reference, and [MarshalJSON] returns no error. *)
Theorem MarshalJSON_test_concept :
  MarshalJSON
    (Concept.Build "Test Pref Label" [] "" "Test Type" "Test Concept Schema"
       "" "" "" "" false)
  = (q "{'skosxl:prefLabel':[{'skosxl:literalForm':[{'@value':'Test Pref Label','@language':'en'}],'@type':['skosxl:Label']}],'@type':['skos:Concept','Test Type'],'skos:topConceptOf':{'@id':'Test Concept Schema'}}",
     None).
Proof. vm_compute. reflexivity. Qed.

(** The optional members of the document before it is written out: absent
    exactly when the field is empty, and no member is null or an empty
    container. *)
Lemma optional_members (c : Concept.t) :
  let doc := wireDocument c in
  json.member "skosxl:altLabel" doc
  = (if isNil (Concept.AltLabels c) then None
     else Some (json.Array (map (fun al => conceptLabel.marshal (label al))
                              (Concept.AltLabels c))))
  /\ json.member "http://www.ft.com/ontology/description" doc
     = (if String.eqb (Concept.Description c) "" then None
        else Some (json.Array
                     [wordValue.marshal (wordValue.Build (Concept.Description c) "en")]))
  /\ json.member "http://www.ft.com/ontology/TMEIdentifier" doc
     = (if String.eqb (Concept.TMEIdentifier c) "" then None
        else Some (json.Array
                     [conceptValue.marshal (conceptValue.Build (Concept.TMEIdentifier c))]))
  /\ json.member "http://www.ft.com/ontology/factsetIdentifier" doc
     = (if String.eqb (Concept.FactsetIdentifier c) "" then None
        else Some (json.Array
                     [conceptValue.marshal (conceptValue.Build (Concept.FactsetIdentifier c))]))
  /\ json.member "http://www.ft.com/ontology/wikidataIdentifier" doc
     = (if String.eqb (Concept.WikidataIdentifier c) "" then None
        else Some (json.Array
                     [uriValue.marshal
                        (uriValue.Build (Concept.WikidataIdentifier c) "xsd:anyURI")]))
  /\ json.member "http://www.ft.com/ontology/isDeprecated" doc
     = (if Concept.IsDeprecated c then Some (json.Array [json.Bool true]) else None)
  /\ match doc with
     | json.Object members => forallb (fun kv => negb (isVoid (snd kv))) members = true
     | _ => False
     end.
Proof.
  unfold wireDocument. rewrite toInputConcept_fields.
  destruct c as [pl al d ty so br tme fs wd dep]; cbn [Concept.AltLabels
    Concept.Description Concept.TMEIdentifier Concept.FactsetIdentifier
    Concept.WikidataIdentifier Concept.IsDeprecated Concept.PrefLabel
    Concept.Type_ Concept.SchemaObject].
  destruct al as [| a al]; destruct (String.eqb d ""), (String.eqb tme ""),
    (String.eqb fs ""), (String.eqb wd ""), dep;
    cbn; unfold json.slice; cbn [map]; rewrite ?map_map; repeat split; reflexivity.
Qed.

Lemma append_assoc (a b c : string) : (a ++ b) ++ c = a ++ (b ++ c).
Proof. induction a as [| x a IH]; cbn; [reflexivity | now rewrite IH]. Qed.

(** The texts of the keys and of the other literals, evaluated. *)
Ltac literal_texts :=
  repeat match goal with
         | |- context [json.appendString ?k] =>
           tryif is_var k then fail else
             let v := eval vm_compute in (json.appendString k) in
             change (json.appendString k) with v
         end;
  repeat match goal with
         | |- context [q ?k] =>
           let v := eval vm_compute in (q k) in
           change (q k) with v
         end.

Lemma encode_label (s : string) :
  json.encode (conceptLabel.marshal (label s)) = labelText s.
Proof.
  unfold labelText.
  cbn [label conceptLabel.marshal conceptLabel.LiteralForm conceptLabel.Type_
       json.omitemptySlice json.slice map app json.encode String.concat
       wordValue.marshal wordValue.Value wordValue.Language json.omitemptyString].
  literal_texts. rewrite ?append_assoc. reflexivity.
Qed.

(** The text of a slice member that is not left out. *)
Lemma slice_member_text {A} (key : string) (enc : A -> json.Value) (x : A) (l : list A) :
  map (fun kv : string * json.Value =>
         let (k, v) := kv in json.appendString k ++ ":" ++ json.encode v)
      (json.omitemptySlice key enc (x :: l))
  = [json.appendString key ++ ":["
     ++ String.concat "," (map (fun y => json.encode (enc y)) (x :: l)) ++ "]"].
Proof.
  unfold json.omitemptySlice, json.slice.
  cbn [map json.encode String.concat]. rewrite map_map, ?append_assoc. reflexivity.
Qed.

Lemma member_texts (c : Concept.t) :
  map (fun kv : string * json.Value =>
         let (k, x) := kv in json.appendString k ++ ":" ++ json.encode x)
      (inputConcept.members (toInputConcept c))
  = memberTexts c.
Proof.
  rewrite toInputConcept_fields. unfold inputConcept.members, memberTexts.
  destruct c as [pl al d ty so br tme fs wd dep].
  cbn [Concept.AltLabels Concept.Description Concept.TMEIdentifier
       Concept.FactsetIdentifier Concept.WikidataIdentifier Concept.IsDeprecated
       Concept.PrefLabel Concept.Type_ Concept.SchemaObject
       inputConcept.PrefLabel inputConcept.AltLabels inputConcept.Description
       inputConcept.Type_ inputConcept.TopConceptOf inputConcept.TMEIdentifier
       inputConcept.FactsetIdentifier inputConcept.WikidataIdentifier
       inputConcept.IsDeprecated].
  rewrite !map_app.
  cbn [List.concat]. rewrite app_nil_r.
  repeat match goal with
         | |- (_ ++ _)%list = (_ ++ _)%list => apply (f_equal2 (@app string))
         end.
  - rewrite slice_member_text. cbn [map String.concat]. rewrite encode_label.
    literal_texts. rewrite ?append_assoc. reflexivity.
  - destruct al as [| a al]; [reflexivity |].
    cbn [isNil]. change (map label (a :: al)) with (label a :: map label al).
    rewrite slice_member_text.
    change (label a :: map label al) with (map label (a :: al)).
    rewrite map_map, (map_ext _ labelText encode_label).
    literal_texts. rewrite ?append_assoc. reflexivity.
  - destruct (String.eqb d ""); [reflexivity |].
    rewrite slice_member_text.
    cbn [map String.concat wordValue.marshal wordValue.Value wordValue.Language
         json.omitemptyString app json.encode].
    literal_texts. rewrite ?append_assoc. reflexivity.
  - rewrite slice_member_text. cbn [map String.concat json.encode].
    literal_texts. rewrite ?append_assoc. reflexivity.
  - cbn [map String.concat conceptID.marshal conceptID.ID json.encode].
    literal_texts. rewrite ?append_assoc. reflexivity.
  - destruct (String.eqb tme ""); [reflexivity |].
    rewrite slice_member_text.
    cbn [map String.concat conceptValue.marshal conceptValue.Value json.encode].
    literal_texts. rewrite ?append_assoc. reflexivity.
  - destruct (String.eqb fs ""); [reflexivity |].
    rewrite slice_member_text.
    cbn [map String.concat conceptValue.marshal conceptValue.Value json.encode].
    literal_texts. rewrite ?append_assoc. reflexivity.
  - destruct (String.eqb wd ""); [reflexivity |].
    rewrite slice_member_text.
    cbn [map String.concat uriValue.marshal uriValue.Value uriValue.Type_ json.encode].
    literal_texts. rewrite ?append_assoc. reflexivity.
  - destruct dep; reflexivity.
Qed.

(** C4: for every Concept, [MarshalJSON] returns no error and exactly the
    bytes of an object whose members are, in this order: the preferred
    label; the alternate labels, only when AltLabels is not empty; the
    description, only when Description is not empty; the types; the scheme
    reference; the TME, Factset and Wikidata identifiers, each only when
    the field is not empty; and the deprecated key with the value
    [[true]], only when IsDeprecated is true.  A key that is left out is
    left out with its value: nothing is written for it, neither null nor an
    empty container. *)
Theorem MarshalJSON_optional_members (c : Concept.t) :
  MarshalJSON c = ("{" ++ String.concat "," (memberTexts c) ++ "}", None).
Proof.
  unfold MarshalJSON, json_Marshal_inputConcept, inputConcept.marshal.
  cbn [json.encode]. now rewrite member_texts.
Qed.

(** An element of a joined list sits in the result as it is. *)
Lemma concat_middle (sep : string) (l1 l2 : list string) (x : string) :
  exists pre post, String.concat sep (l1 ++ x :: l2) = pre ++ x ++ post.
Proof.
  induction l1 as [| y l1 IH].
  - exists "". destruct l2 as [| z l2]; cbn.
    + exists "". clear. induction x; cbn; congruence.
    + now exists (sep ++ String.concat sep (z :: l2)).
  - destruct IH as (pre & post & IH).
    exists (y ++ sep ++ pre), post.
    change ((y :: l1) ++ x :: l2)%list with (y :: (l1 ++ x :: l2))%list.
    destruct (l1 ++ x :: l2)%list as [| w l] eqn:E.
    + destruct l1; discriminate.
    + cbn [String.concat]. cbn [String.concat] in IH. rewrite IH.
      now rewrite !append_assoc.
Qed.

Lemma members_scheme_reference (input : inputConcept.t) :
  exists before after,
    inputConcept.members input
    = (before ++ ("skos:topConceptOf", conceptID.marshal (inputConcept.TopConceptOf input))
              :: after)%list.
Proof.
  unfold inputConcept.members.
  repeat match goal with
         | |- context [json.omitemptySlice ?k ?f ?l] =>
           generalize (json.omitemptySlice k f l); intro
         end.
  match goal with
  | |- exists before after, (?a ++ ?b ++ ?c ++ ?d ++ [?x] ++ ?rest = _)%list =>
    exists (a ++ b ++ c ++ d)%list, rest
  end.
  now rewrite <- !app_assoc.
Qed.

Lemma toInputConcept_scheme (c : Concept.t) :
  inputConcept.TopConceptOf (toInputConcept c) = conceptID.Build (Concept.SchemaObject c).
Proof. now rewrite toInputConcept_fields. Qed.

(** C9: [MarshalJSON] returns no error for any Concept, and for a Concept
    whose SchemaObject is empty the document still has the member
    skos:topConceptOf, an object whose @id is the empty string; the bytes
    returned contain that member written out. *)
Theorem empty_scheme_reference_emitted (c : Concept.t)
        (Hempty : Concept.SchemaObject c = "") :
  (forall c' : Concept.t, snd (MarshalJSON c') = None)
  /\ json.member "skos:topConceptOf" (wireDocument c)
     = Some (json.Object [("@id", json.String_ "")])
  /\ exists pre post,
       fst (MarshalJSON c) = pre ++ q "'skos:topConceptOf':{'@id':''}" ++ post.
Proof.
  split; [reflexivity |]. split.
  - unfold wireDocument. rewrite toInputConcept_fields, Hempty.
    destruct c as [pl al d ty so br tme fs wd dep]; cbn.
    destruct al, (String.eqb d ""); reflexivity.
  - unfold MarshalJSON, json_Marshal_inputConcept, inputConcept.marshal. cbn [fst].
    destruct (members_scheme_reference (toInputConcept c)) as (before & after & ->).
    rewrite toInputConcept_scheme, Hempty.
    cbn [json.encode]. rewrite map_app. cbn [map].
    match goal with
    | |- context [String.concat ?sep (?l1 ++ ?x :: ?l2)] =>
      destruct (concat_middle sep l1 l2 x) as (pre & post & ->)
    end.
    exists ("{" ++ pre), (post ++ "}").
    rewrite !append_assoc. reflexivity.
Qed.

Lemma empty_scheme_reference_emitted_witness :
  Concept.SchemaObject
    (Concept.Build "Test Pref Label" [] "" "Test Type" "" "broader" "" "" "" false) = ""
  /\ json.member "skos:topConceptOf"
       (wireDocument
          (Concept.Build "Test Pref Label" [] "" "Test Type" "" "broader" "" "" "" false))
     = Some (json.Object [("@id", json.String_ "")]).
Proof.
  split; [reflexivity |].
  apply (empty_scheme_reference_emitted
           (Concept.Build "Test Pref Label" [] "" "Test Type" "" "broader" "" "" "" false)).
  reflexivity.
Defined.

(** ** The authorized request layer *)

Section ClientProperties.

Variable path_Join : list string -> string.
Variable URL_String : url.URL -> string.
Variable NewRequestError : string -> string -> option error.
Variable Transport : list http.Exchange -> http.Request.t -> http.Result * nat.

Local Abbreviation getToken := (getAccessToken URL_String NewRequestError Transport).
Local Abbreviation loop := (authorizedLoop URL_String NewRequestError Transport).
Local Abbreviation tokenReq := (tokenRequest URL_String).

Lemma isTokenRequest_token (c : Client) : isTokenRequest (tokenReq c) = true.
Proof. reflexivity. Qed.

Lemma isTokenRequest_authorized (method url : string) (body : option string)
      (token : string) :
  isTokenRequest (authorizedRequest method url body token) = false.
Proof. reflexivity. Qed.

(** [getAccessToken] panics when the token request cannot be built. *)
Lemma getAccessToken_rejected (st : State) (err : error) :
  NewRequestError http.MethodPost (URL_String (apiTokenURL (self st))) = Some err ->
  getToken st = (Panics nilDereference, st).
Proof.
  intros H. unfold getAccessToken, bind, getSelf, NewRequestWithContext, requestMethod.
  cbn. now rewrite H.
Qed.

(** Otherwise it makes one exchange, and returns the token that the reply
    grants or an error. *)
Lemma getAccessToken_run (st : State) :
  NewRequestError http.MethodPost (URL_String (apiTokenURL (self st))) = None ->
  let r := fst (Transport (history st) (tokenReq (self st))) in
  let st' := BuildState (self st) (history st ++ [http.Sent (tokenReq (self st)) r]) in
  match tokenGranted r with
  | Some token => getToken st = (Returns (token, None), st')
  | None => exists err, getToken st = (Returns ("", Some err), st')
  end.
Proof.
  intros H r st'. subst r st'.
  unfold getAccessToken, bind, getSelf, NewRequestWithContext, requestMethod, Do, ret.
  cbn. rewrite H.
  change (http.Request.setHeader _ _ _) with (tokenReq (self st)).
  destruct (Transport (history st) (tokenReq (self st))) as [r k]. cbn [fst].
  destruct r as [resp | resp err]; cbn [tokenGranted].
  - destruct (http.Response.StatusCode resp =? http.StatusOK)%Z; cbn [negb].
    + destruct (decodeTokenResp (http.Response.Body resp)) as [token [e |]].
      * eexists. reflexivity.
      * reflexivity.
    + eexists. reflexivity.
  - eexists. reflexivity.
Qed.

(** Whatever [getAccessToken] does, it leaves the client alone and adds at
    most the token exchange to the history; a token comes back only when
    that exchange granted it. *)
Lemma getAccessToken_effect (st : State) :
  exists new,
    snd (getToken st) = BuildState (self st) (history st ++ new)
    /\ attempts new = []
    /\ forall stored,
         lastGranted new stored
         = match fst (getToken st) with
           | Returns (token, None) => token
           | _ => stored
           end.
Proof.
  destruct (NewRequestError http.MethodPost (URL_String (apiTokenURL (self st))))
    as [err |] eqn:E.
  - rewrite (getAccessToken_rejected st err E). exists []. cbn.
    rewrite app_nil_r. destruct st; auto.
  - pose proof (getAccessToken_run st E) as H. cbn zeta in H.
    exists [http.Sent (tokenReq (self st)) (fst (Transport (history st) (tokenReq (self st))))].
    destruct (tokenGranted (fst (Transport (history st) (tokenReq (self st))))) as [t |] eqn:G.
    + rewrite H. cbn [fst snd]. repeat split.
      intros stored. unfold lastGranted, grantedBy. cbn. now rewrite G.
    + destruct H as [err H]. rewrite H. cbn [fst snd]. repeat split.
      intros stored. unfold lastGranted, grantedBy. cbn. now rewrite G.
Qed.

(** One iteration of the loop of [makeAuthorizedRequest]. *)
Lemma loop_rejected (n : nat) (method url : string) (body : option string)
      (st : State) (err : error) :
  NewRequestError (requestMethod method) url = Some err ->
  loop (S n) method url body st
  = (Returns (None, Some (fmt_Errorf "failed creating authorized request: %w"
                            [ArgError err])), st).
Proof.
  intros H. cbn [authorizedLoop]. unfold bind, getSelf, NewRequestWithContext.
  now rewrite H.
Qed.

Lemma loop_step (n : nat) (method url : string) (body : option string) (st : State) :
  NewRequestError (requestMethod method) url = None ->
  let req := authorizedRequest method url body (accessToken (self st)) in
  let r := Transport (history st) req in
  let st1 := BuildState (self st) (history st ++ [http.Sent req (fst r)]) in
  loop (S n) method url body st
  = match fst r with
    | http.Err resp err =>
      (Returns (resp, Some (fmt_Errorf "failed making authorized request: %w"
                              [ArgError err])), st1)
    | http.Ok resp =>
      if (http.Response.StatusCode resp =? http.StatusUnauthorized)%Z then
        match getToken st1 with
        | (Returns (_, Some _), st2) => (Returns (None, Some authError), st2)
        | (Returns (token, None), st2) =>
          loop n method url (option_map (skip (snd r)) body)
               (BuildState (setAccessToken (self st2) token) (history st2))
        | (Panics reason, st2) => (Panics reason, st2)
        end
      else (Returns (Some resp, None), st1)
    end.
Proof.
  intros H req r st1. subst req r st1.
  cbn [authorizedLoop]. unfold bind at 1. unfold getSelf, NewRequestWithContext.
  rewrite H.
  change (http.Request.setHeader (http.Request.setHeader _ _ _) _ _)
    with (authorizedRequest method url body (accessToken (self st))).
  unfold bind at 1. unfold Do at 1.
  destruct (Transport (history st) (authorizedRequest method url body (accessToken (self st))))
    as [r k]. cbn [fst snd].
  destruct r as [resp | resp err]; [| reflexivity].
  destruct (http.Response.StatusCode resp =? http.StatusUnauthorized)%Z; [| reflexivity].
  unfold bind at 1.
  destruct (getToken _) as [[[token [e |]] | reason] st2]; reflexivity.
Qed.

Lemma lastGranted_app (a b : list http.Exchange) (stored : string) :
  lastGranted (a ++ b) stored = lastGranted b (lastGranted a stored).
Proof. apply fold_left_app. Qed.

Lemma lastGranted_data (req : http.Request.t) (r : http.Result)
      (rest : list http.Exchange) (stored : string) :
  isTokenRequest req = false ->
  lastGranted (http.Sent req r :: rest) stored = lastGranted rest stored.
Proof. intros H. unfold lastGranted, grantedBy. cbn. now rewrite H. Qed.

(** What a run of the loop may change, whatever the number of iterations
    left. *)
Lemma authorizedLoop_frame (n : nat) (method url : string) :
  forall (body : option string) (st : State),
    let st' := snd (loop n method url body st) in
    (baseAPIURL (self st') = baseAPIURL (self st)
     /\ apiTokenURL (self st') = apiTokenURL (self st)
     /\ apiKey (self st') = apiKey (self st)
     /\ model (self st') = model (self st))
    /\ exists new,
        history st' = (history st ++ new)%list
        /\ accessToken (self st') = lastGranted new (accessToken (self st))
        /\ (existsb (fun e => isUnauthorized (http.reply e)) new = true
            \/ self st' = self st).
Proof.
  induction n as [| n IH]; intros body st; cbn zeta.
  - cbn. repeat split. exists []. rewrite app_nil_r. auto.
  - destruct (NewRequestError (requestMethod method) url) as [err |] eqn:E.
    + rewrite (loop_rejected n method url body st err E). cbn [snd].
      repeat split. exists []. rewrite app_nil_r. auto.
    + rewrite (loop_step n method url body st E). cbn zeta.
      set (req := authorizedRequest method url body (accessToken (self st))).
      assert (Hdata : isTokenRequest req = false) by reflexivity.
      destruct (Transport (history st) req) as [r k]. cbn [fst snd].
      destruct r as [resp | resp err].
      * destruct (http.Response.StatusCode resp =? http.StatusUnauthorized)%Z eqn:S401.
        -- set (st1 := BuildState (self st) (history st ++ [http.Sent req (http.Ok resp)])).
           destruct (getAccessToken_effect st1) as (newT & Hst2 & _ & Hgrant).
           destruct (getToken st1) as [[[token [e |]] | reason] st2];
             cbn [fst snd] in Hst2, Hgrant; subst st2; cbn [snd self history].
           ++ repeat split. exists (http.Sent req (http.Ok resp) :: newT).
              subst st1. cbn [self history]. rewrite <- app_assoc. split; [reflexivity |].
              split.
              ** now rewrite (lastGranted_data req _ _ _ Hdata), Hgrant.
              ** left. cbn. now rewrite S401.
           ++ specialize (IH (option_map (skip k) body)
                             (BuildState (setAccessToken (self st1) token)
                                         (history st1 ++ newT))).
              cbn zeta in IH. destruct IH as ((B & T & K & M) & new2 & Hh & Ht & _).
              cbn [self history setAccessToken baseAPIURL apiTokenURL apiKey model
                   accessToken] in B, T, K, M, Hh, Ht.
              subst st1. cbn [self history] in *.
              repeat split; try assumption.
              exists (http.Sent req (http.Ok resp) :: newT ++ new2)%list.
              split; [| split].
              ** rewrite Hh. now rewrite <- !app_assoc.
              ** rewrite Ht.
                 rewrite (lastGranted_data req _ _ _ Hdata), lastGranted_app.
                 now rewrite Hgrant.
              ** left. cbn. now rewrite S401.
           ++ repeat split. exists (http.Sent req (http.Ok resp) :: newT).
              subst st1. cbn [self history]. rewrite <- app_assoc. split; [reflexivity |].
              split.
              ** now rewrite (lastGranted_data req _ _ _ Hdata), Hgrant.
              ** left. cbn. now rewrite S401.
        -- cbn [snd self history]. repeat split.
           exists [http.Sent req (http.Ok resp)]. repeat split. now right.
      * cbn [snd self history]. repeat split.
        exists [http.Sent req (http.Err resp err)]. repeat split. now right.
Qed.

(** C10: in every execution of [makeAuthorizedRequest] the fields
    baseAPIURL, apiTokenURL, apiKey and model of the client keep their
    values; the stored access token ends as the token granted by the last
    successful token exchange of the execution, and as it was when no
    exchange of the execution granted one, so a failed exchange leaves it
    as it stood; when no reply is a 401 the client is unchanged. *)
Theorem makeAuthorizedRequest_writes_only_the_token
        (method url : string) (body : option string) (st : State) :
  let st' :=
    snd (makeAuthorizedRequest URL_String NewRequestError Transport method url body st) in
  (baseAPIURL (self st') = baseAPIURL (self st)
   /\ apiTokenURL (self st') = apiTokenURL (self st)
   /\ apiKey (self st') = apiKey (self st)
   /\ model (self st') = model (self st))
  /\ exists new,
      history st' = (history st ++ new)%list
      /\ accessToken (self st') = lastGranted new (accessToken (self st))
      /\ (existsb (fun e => isUnauthorized (http.reply e)) new = true
          \/ self st' = self st).
Proof. apply authorizedLoop_frame. Qed.

(** A data endpoint that answers every request with a 401, behind a token
    endpoint that always grants a token: the loop uses up its iterations,
    one data request and one token exchange each. *)
Lemma authorizedLoop_always_unauthorized (method url : string) (tokenURL : url.URL) :
  NewRequestError (requestMethod method) url = None ->
  NewRequestError http.MethodPost (URL_String tokenURL) = None ->
  (forall h req, isTokenRequest req = false ->
                 isUnauthorized (fst (Transport h req)) = true) ->
  (forall h req, isTokenRequest req = true ->
                 tokenGranted (fst (Transport h req)) <> None) ->
  forall (n : nat) (body : option string) (st : State),
    apiTokenURL (self st) = tokenURL ->
    exists st',
      loop n method url body st = (Returns (None, Some authError), st')
      /\ exists new,
          history st' = (history st ++ new)%list
          /\ length new = 2 * n
          /\ length (attempts new) = n
          /\ Forall (fun req => http.Request.Method req = requestMethod method
                                /\ http.Request.URL req = url) (attempts new).
Proof.
  intros Hreq Htok H401 Hgrant.
  induction n as [| n IH]; intros body st HU.
  - exists st. split; [reflexivity |]. exists []. rewrite app_nil_r. cbn. auto.
  - rewrite (loop_step n method url body st Hreq). cbn zeta.
    set (req := authorizedRequest method url body (accessToken (self st))).
    assert (Hdata : isTokenRequest req = false) by reflexivity.
    pose proof (H401 (history st) req Hdata) as Hr.
    destruct (Transport (history st) req) as [r k]. cbn [fst snd] in Hr |- *.
    destruct r as [resp | resp err]; [| discriminate].
    cbn [isUnauthorized] in Hr. rewrite Hr.
    set (st1 := BuildState (self st) (history st ++ [http.Sent req (http.Ok resp)])).
    assert (Htok1 : NewRequestError http.MethodPost (URL_String (apiTokenURL (self st1)))
                    = None) by (subst st1; cbn [self]; now rewrite HU).
    pose proof (getAccessToken_run st1 Htok1) as Hrun. cbn zeta in Hrun.
    pose proof (Hgrant (history st1) (tokenReq (self st1)) eq_refl) as Hsome.
    destruct (tokenGranted (fst (Transport (history st1) (tokenReq (self st1)))))
      as [token |]; [| congruence].
    rewrite Hrun. cbn [self history].
    match goal with
    | |- exists st', loop n method url ?b ?s = _ /\ _ =>
      destruct (IH b s) as (st' & Hloop & new & Hh & Hlen & Hatt & Hall)
    end.
    { subst st1. cbn [self setAccessToken apiTokenURL]. exact HU. }
    exists st'. split; [exact Hloop |].
    exists (http.Sent req (http.Ok resp)
              :: http.Sent (tokenReq (self st1))
                   (fst (Transport (history st1) (tokenReq (self st1)))) :: new).
    cbn [history] in Hh. subst st1. cbn [self history] in Hh |- *.
    split; [rewrite Hh; now rewrite <- !app_assoc |].
    split; [cbn [length]; lia |].
    unfold attempts in *. cbn [filter http.request].
    rewrite Hdata, isTokenRequest_token. cbn [negb map length http.request].
    split; [now rewrite Hatt |].
    constructor; [split; reflexivity | exact Hall].
Qed.

(** C2: when every reply of the data endpoint is a 401 and every token
    exchange grants a token, [makeAuthorizedRequest] sends exactly 3 data
    requests, each with the method and the URL it was given, and then
    returns the authentication error and no response. *)
Theorem makeAuthorizedRequest_gives_up_after_three
        (method url : string) (body : option string) (st : State)
        (Hreq : NewRequestError (requestMethod method) url = None)
        (Htok : NewRequestError http.MethodPost (URL_String (apiTokenURL (self st))) = None)
        (H401 : forall h req, isTokenRequest req = false ->
                              isUnauthorized (fst (Transport h req)) = true)
        (Hgrant : forall h req, isTokenRequest req = true ->
                                tokenGranted (fst (Transport h req)) <> None) :
  exists st',
    makeAuthorizedRequest URL_String NewRequestError Transport method url body st
    = (Returns (None, Some authError), st')
    /\ exists new,
        history st' = (history st ++ new)%list
        /\ length (attempts new) = 3
        /\ Forall (fun req => http.Request.Method req = requestMethod method
                              /\ http.Request.URL req = url) (attempts new).
Proof.
  destruct (authorizedLoop_always_unauthorized method url (apiTokenURL (self st))
              Hreq Htok H401 Hgrant MaxAccessFailures body st eq_refl)
    as (st' & Hrun & new & Hh & _ & Hatt & Hall).
  exists st'. split; [exact Hrun |]. exists new. auto.
Qed.

(** A reply other than a 401 ends the loop with that reply. *)
Lemma loop_answered (n : nat) (method url : string) (body : option string)
      (st : State) (resp : http.Response.t) :
  NewRequestError (requestMethod method) url = None ->
  let req := authorizedRequest method url body (accessToken (self st)) in
  fst (Transport (history st) req) = http.Ok resp ->
  (http.Response.StatusCode resp =? http.StatusUnauthorized)%Z = false ->
  loop (S n) method url body st
  = (Returns (Some resp, None),
     BuildState (self st) (history st ++ [http.Sent req (http.Ok resp)])).
Proof.
  intros Hreq req Hr Hs. rewrite (loop_step n method url body st Hreq). cbn zeta.
  fold req. rewrite Hr, Hs. reflexivity.
Qed.

(** The retry after a single 401: one token exchange, the token it grants
    stored and sent, the same method and URL, and for body what the first
    attempt left unread in the reader. *)
Lemma retry_after_one_401 (method url : string) (body : option string) (st : State)
      (resp1 resp2 : http.Response.t) (token : string) :
  NewRequestError (requestMethod method) url = None ->
  NewRequestError http.MethodPost (URL_String (apiTokenURL (self st))) = None ->
  let req1 := authorizedRequest method url body (accessToken (self st)) in
  let read := snd (Transport (history st) req1) in
  let h1 := (history st ++ [http.Sent req1 (http.Ok resp1)])%list in
  let grant := fst (Transport h1 (tokenReq (self st))) in
  let h2 := (h1 ++ [http.Sent (tokenReq (self st)) grant])%list in
  let req2 := authorizedRequest method url (option_map (skip read) body) token in
  fst (Transport (history st) req1) = http.Ok resp1 ->
  http.Response.StatusCode resp1 = http.StatusUnauthorized ->
  tokenGranted grant = Some token ->
  fst (Transport h2 req2) = http.Ok resp2 ->
  http.Response.StatusCode resp2 <> http.StatusUnauthorized ->
  makeAuthorizedRequest URL_String NewRequestError Transport method url body st
  = (Returns (Some resp2, None),
     BuildState (setAccessToken (self st) token)
                (h2 ++ [http.Sent req2 (http.Ok resp2)])).
Proof.
  intros Hreq Htok req1 read h1 grant h2 req2 H1 S1 Hg H2 S2.
  unfold makeAuthorizedRequest, MaxAccessFailures.
  rewrite (loop_step 2 method url body st Hreq). cbn zeta. fold req1.
  rewrite H1, S1. cbn [Z.eqb http.StatusUnauthorized Pos.eqb].
  pose proof (getAccessToken_run
                (BuildState (self st) (history st ++ [http.Sent req1 (http.Ok resp1)]))
                Htok) as Hrun.
  cbn zeta in Hrun. cbn [self history] in Hrun. fold h1 in Hrun. fold grant in Hrun.
  rewrite Hg in Hrun. fold h1. rewrite Hrun. cbn [self history]. fold h2. fold read.
  rewrite loop_answered with (resp := resp2); cbn [self history setAccessToken accessToken];
    try assumption.
  - reflexivity.
  - now apply Z.eqb_neq.
Qed.

(** The first exchange of a run is the request built from the arguments
    and the stored token. *)
Lemma loop_first_exchange (n : nat) (method url : string) (body : option string)
      (st : State) :
  NewRequestError (requestMethod method) url = None ->
  let req := authorizedRequest method url body (accessToken (self st)) in
  exists rest,
    history (snd (loop (S n) method url body st))
    = (history st ++ http.Sent req (fst (Transport (history st) req)) :: rest)%list.
Proof.
  intros Hreq req. rewrite (loop_step n method url body st Hreq). cbn zeta. fold req.
  destruct (Transport (history st) req) as [r k]. cbn [fst snd].
  destruct r as [resp | resp err]; [| now exists []].
  destruct (http.Response.StatusCode resp =? http.StatusUnauthorized)%Z; [| now exists []].
  set (st1 := BuildState (self st) (history st ++ [http.Sent req (http.Ok resp)])).
  destruct (getAccessToken_effect st1) as (newT & Hst2 & _).
  destruct (getToken st1) as [[[token [e |]] | reason] st2];
    cbn [snd] in Hst2; subst st2 st1; cbn [snd self history].
  - exists newT. now rewrite <- app_assoc.
  - match goal with
    | |- context [loop n method url ?b ?s] =>
      destruct (authorizedLoop_frame n method url b s) as (_ & new & Hh & _)
    end.
    cbn zeta in Hh. cbn [history] in Hh. rewrite Hh.
    exists (newT ++ new)%list. now rewrite <- !app_assoc.
  - exists newT. now rewrite <- app_assoc.
Qed.

(** ** The operations *)

Local Abbreviation create := (CreateConcept URL_String NewRequestError Transport).
Local Abbreviation addField :=
  (AddConceptMetadataField URL_String NewRequestError Transport).
Local Abbreviation authorized :=
  (makeAuthorizedRequest URL_String NewRequestError Transport).

(** C5: a Concept whose PrefLabel is empty, or whose Type is empty, or
    whose SchemaObject and Broader are both empty, makes [CreateConcept]
    return the validation error of the first check that fails, and leaves
    the client and the history of exchanges as they were: nothing was sent,
    to the data endpoint or to the token endpoint. *)
Theorem CreateConcept_validates_first (concept : Concept.t) (task : string) (st : State)
        (Hinvalid : Concept.PrefLabel concept = ""
                    \/ Concept.Type_ concept = ""
                    \/ (Concept.SchemaObject concept = ""
                        /\ Concept.Broader concept = "")) :
  create concept task st
  = (Returns
       (Some (errors_New
                (if String.eqb (Concept.PrefLabel concept) ""
                 then "input concept should have prefLaber defined"
                 else if String.eqb (Concept.SchemaObject concept) ""
                         && String.eqb (Concept.Broader concept) ""
                 then "input concept should have either schema or broader relation defined"
                 else "input concept should have type defined"))),
     st).
Proof.
  unfold CreateConcept.
  destruct (String.eqb_spec (Concept.PrefLabel concept) "") as [Hp | Hp];
    [reflexivity |].
  destruct (String.eqb_spec (Concept.SchemaObject concept) "") as [Hs | Hs];
    destruct (String.eqb_spec (Concept.Broader concept) "") as [Hb | Hb];
    cbn [andb]; try reflexivity;
    (destruct (String.eqb_spec (Concept.Type_ concept) "") as [Ht | Ht];
     [reflexivity | exfalso; intuition congruence]).
Qed.

(** What the operations do with a response of the request layer. *)
Lemma CreateConcept_service_error (concept : Concept.t) (task : string)
      (st st' : State) (resp : http.Response.t) :
  Concept.PrefLabel concept <> "" ->
  Concept.Type_ concept <> "" ->
  (Concept.SchemaObject concept <> "" \/ Concept.Broader concept <> "") ->
  authorized http.MethodPost
    (URL_String (url.setRawQuery (baseAPIURL (self st))
                   ("path=" ++ "task:" ++ model (self st) ++ ":" ++ task
                            ++ "/skos:Concept/rdf:instance")))
    (Some (fst (json_Marshal_Concept concept))) st
  = (Returns (Some resp, None), st') ->
  isSuccess (http.Response.StatusCode resp) = false ->
  create concept task st
  = (Returns (Some (fmt_Errorf "failed creating new concept, returned status %v"
                      [ArgInt (http.Response.StatusCode resp)])), st').
Proof.
  intros Hp Ht Hs Hrun Hstatus. unfold CreateConcept.
  apply String.eqb_neq in Hp, Ht. rewrite Hp, Ht.
  assert (Hsb : String.eqb (Concept.SchemaObject concept) ""
                && String.eqb (Concept.Broader concept) "" = false).
  { destruct Hs as [H | H]; apply String.eqb_neq in H; rewrite H;
      [reflexivity | apply andb_false_r]. }
  rewrite Hsb. unfold bind at 1. unfold getSelf at 1.
  change (json_Marshal_Concept concept)
    with (fst (json_Marshal_Concept concept), @None error).
  cbv iota. unfold bind. rewrite Hrun. now rewrite Hstatus.
Qed.

Lemma AddConceptMetadataField_service_error (conceptID fieldName fieldValue task : string)
      (st st' : State) (resp : http.Response.t) :
  let conceptURI := ConceptURIPrefix ++ "/" ++ conceptID in
  authorized http.MethodPost
    (URL_String (url.setRawQuery (baseAPIURL (self st))
                   ("path=" ++ "task:" ++ model (self st) ++ ":" ++ task ++ "/"
                            ++ url.QueryEscape (url.QueryEscape ("<" ++ conceptURI ++ ">")))))
    (Some (json.encode
             (json.marshalStringMap
                (mapSet (mapSet [] "@id" conceptURI)
                        (MetadataFieldPrefix ++ "/" ++ fieldName) fieldValue)))) st
  = (Returns (Some resp, None), st') ->
  isSuccess (http.Response.StatusCode resp) = false ->
  addField conceptID fieldName fieldValue task st
  = (Returns (Some (fmt_Errorf "failed adding metadata to concept %s, returned status %v"
                      [ArgString conceptID; ArgInt (http.Response.StatusCode resp)])),
     st').
Proof.
  intros conceptURI Hrun Hstatus. unfold AddConceptMetadataField.
  unfold bind at 1. unfold getSelf at 1. cbv zeta. unfold bind.
  subst conceptURI. rewrite Hrun. now rewrite Hstatus.
Qed.

(** [GetConceptsWithCustomMetadata] decodes the body of whatever response
    the request layer hands over; the status plays no part. *)
Lemma GetConceptsWithCustomMetadata_any_status (float64 : Type)
      (ParseFloat : string -> option float64) (task field value : string)
      (st st' : State) (resp : http.Response.t)
      (graph : option (list (json.Any float64))) :
  (forall url, authorized http.MethodGet url None st = (Returns (Some resp, None), st')) ->
  decodeGraph float64 ParseFloat (http.Response.Body resp) = inl graph ->
  GetConceptsWithCustomMetadata path_Join URL_String NewRequestError Transport
    float64 ParseFloat task field value st
  = (Returns (graph, None), st').
Proof.
  intros Hrun Hdecode. unfold GetConceptsWithCustomMetadata.
  unfold bind at 1. unfold getSelf at 1. cbv zeta. unfold bind.
  rewrite Hrun, Hdecode. reflexivity.
Qed.

Lemma test_encodedConceptURI :
  url.QueryEscape
    (url.QueryEscape
       ("<" ++ (ConceptURIPrefix ++ "/" ++ "7bcfe07b-0fb1-49ce-a5fa-e51d5c01c3e0") ++ ">"))
  = "%253Chttp%253A%252F%252Fwww.ft.com%252Fthing%252F7bcfe07b-0fb1-49ce-a5fa-e51d5c01c3e0%253E".
Proof. vm_compute. reflexivity. Qed.

Lemma test_metadataBody :
  json.encode
    (json.marshalStringMap
       (mapSet (mapSet [] "@id"
                  (ConceptURIPrefix ++ "/" ++ "7bcfe07b-0fb1-49ce-a5fa-e51d5c01c3e0"))
               (MetadataFieldPrefix ++ "/" ++ "factsetIdentifier") "0DR49W-E"))
  = q "{'@id':'http://www.ft.com/thing/7bcfe07b-0fb1-49ce-a5fa-e51d5c01c3e0','http://www.ft.com/ontology/factsetIdentifier':'0DR49W-E'}".
Proof. vm_compute. reflexivity. Qed.

(** C6: [AddConceptMetadataField] called with the concept
    7bcfe07b-0fb1-49ce-a5fa-e51d5c01c3e0, the field factsetIdentifier and
    the value 0DR49W-E first sends a POST to the base API URL with its raw
    query replaced by [path=task:<model>:<task>/] followed by the concept
    URI in angle brackets escaped twice, written out here; the body is the
    object of the concept URI and the field, written out as well. *)
Theorem AddConceptMetadataField_test_request (task : string) (st : State)
        (Hreq :
           NewRequestError "POST"
             (URL_String
                (url.Build (url.Scheme (baseAPIURL (self st)))
                   (url.Host (baseAPIURL (self st)))
                   (url.Path (baseAPIURL (self st)))
                   ("path=task:" ++ model (self st) ++ ":" ++ task
                    ++ "/%253Chttp%253A%252F%252Fwww.ft.com%252Fthing%252F7bcfe07b-0fb1-49ce-a5fa-e51d5c01c3e0%253E")
                   (url.Fragment (baseAPIURL (self st)))))
           = None) :
  exists (sent : http.Exchange) (rest : list http.Exchange),
    history (snd (addField "7bcfe07b-0fb1-49ce-a5fa-e51d5c01c3e0" "factsetIdentifier"
                    "0DR49W-E" task st))
    = (history st ++ sent :: rest)%list
    /\ http.Request.Method (http.request sent) = "POST"
    /\ http.Request.URL (http.request sent)
       = URL_String
           (url.Build (url.Scheme (baseAPIURL (self st)))
              (url.Host (baseAPIURL (self st)))
              (url.Path (baseAPIURL (self st)))
              ("path=task:" ++ model (self st) ++ ":" ++ task
               ++ "/%253Chttp%253A%252F%252Fwww.ft.com%252Fthing%252F7bcfe07b-0fb1-49ce-a5fa-e51d5c01c3e0%253E")
              (url.Fragment (baseAPIURL (self st))))
    /\ http.Request.Body (http.request sent)
       = Some (q "{'@id':'http://www.ft.com/thing/7bcfe07b-0fb1-49ce-a5fa-e51d5c01c3e0','http://www.ft.com/ontology/factsetIdentifier':'0DR49W-E'}").
Proof.
  unfold AddConceptMetadataField.
  unfold bind at 1. unfold getSelf at 1. cbv zeta.
  rewrite test_encodedConceptURI, test_metadataBody.
  unfold makeAuthorizedRequest, MaxAccessFailures, url.setRawQuery.
  match goal with
  | |- context [loop 3 ?m ?u ?b] =>
    destruct (loop_first_exchange 2 m u b st Hreq) as [rest Hh]
  end.
  cbn zeta in Hh.
  eexists _, rest. split.
  - unfold bind.
    match goal with
    | |- context [loop 3 ?m ?u ?b st] =>
      destruct (loop 3 m u b st) as [[[[resp |] [err |]] | reason] st'] eqn:E
    end;
      cbn [snd] in Hh;
      try destruct (negb (isSuccess (http.Response.StatusCode resp)));
      exact Hh.
  - repeat split.
Qed.

(** ** Construction of the client *)

(** C8: when the token request can be built, a reply of the token endpoint
    with a status other than 200, or with a body that does not decode,
    makes [NewClient] return an error and no client; a reply with status
    200 whose body decodes to a token makes it return a client that stores
    that token, and no error; so does in particular a body that is an
    object with the one member access_token, a string. *)
Theorem NewClient_token (baseCloudURL : url.URL) (clientID key modelName : string)
        (h : list http.Exchange) :
  let tokenURL := url.setPath baseCloudURL (path_Join [url.Path baseCloudURL; "token"]) in
  let client :=
    BuildClient
      (url.setPath baseCloudURL
         (path_Join [url.Path baseCloudURL; "/sw/client/" ++ clientID ++ "/api"]))
      tokenURL key modelName "" in
  let run := NewClient path_Join URL_String NewRequestError Transport
               baseCloudURL clientID key modelName h in
  NewRequestError http.MethodPost (URL_String tokenURL) = None ->
  forall resp : http.Response.t,
    fst (Transport h (tokenReq client)) = http.Ok resp ->
    (http.Response.StatusCode resp <> http.StatusOK
     \/ snd (decodeTokenResp (http.Response.Body resp)) <> None ->
     exists err, fst run = Returns (None, Some err))
    /\ (forall token,
           http.Response.StatusCode resp = http.StatusOK ->
           decodeTokenResp (http.Response.Body resp) = (token, None) ->
           fst run = Returns (Some (setAccessToken client token), None))
    /\ (forall token,
           http.Response.StatusCode resp = http.StatusOK ->
           http.Response.Body resp
           = inl (json.Object [("access_token", json.String_ token)]) ->
           fst run = Returns (Some (setAccessToken client token), None)).
Proof.
  intros tokenURL client run Hreq resp Hresp.
  pose proof (getAccessToken_run (BuildState client h) Hreq) as Hrun.
  cbn zeta in Hrun. cbn [self history] in Hrun. rewrite Hresp in Hrun.
  assert (Hok : forall token,
             http.Response.StatusCode resp = http.StatusOK ->
             decodeTokenResp (http.Response.Body resp) = (token, None) ->
             fst run = Returns (Some (setAccessToken client token), None)).
  { intros token Hs Hd. cbn [tokenGranted] in Hrun. rewrite Hs, Hd in Hrun.
    cbn [Z.eqb http.StatusOK Pos.eqb] in Hrun.
    subst run. unfold NewClient. fold tokenURL. fold client. now rewrite Hrun. }
  split; [| split].
  - intros Hbad.
    assert (Hnone : tokenGranted (http.Ok resp) = None).
    { cbn [tokenGranted]. destruct Hbad as [Hs | Hd].
      - apply Z.eqb_neq in Hs. now rewrite Hs.
      - destruct (http.Response.StatusCode resp =? http.StatusOK)%Z; [| reflexivity].
        destruct (decodeTokenResp (http.Response.Body resp)) as [t [e |]];
          [reflexivity | now elim Hd]. }
    rewrite Hnone in Hrun. destruct Hrun as [err Hrun].
    exists err. subst run. unfold NewClient. fold tokenURL. fold client.
    now rewrite Hrun.
  - exact Hok.
  - intros token Hs Hb. apply Hok; [exact Hs |]. now rewrite Hb.
Qed.

End ClientProperties.

(** ** The properties on the test servers *)

Lemma makeAuthorizedRequest_gives_up_after_three_witness :
  exists st',
    makeAuthorizedRequest renderURL acceptAll
      (fixedStatusServer http.StatusUnauthorized emptyBody)
      http.MethodPost "http://127.0.0.1:8080/sw/client/testClientID/api" (Some "{}")
      (BuildState testClient [])
    = (Returns (None, Some authError), st')
    /\ exists new,
        history st' = (history (BuildState testClient []) ++ new)%list
        /\ length (attempts new) = 3
        /\ Forall (fun req =>
                     http.Request.Method req = requestMethod http.MethodPost
                     /\ http.Request.URL req
                        = "http://127.0.0.1:8080/sw/client/testClientID/api")
                  (attempts new).
Proof.
  apply (makeAuthorizedRequest_gives_up_after_three renderURL acceptAll
           (fixedStatusServer http.StatusUnauthorized emptyBody)).
  - reflexivity.
  - reflexivity.
  - intros h req H. unfold fixedStatusServer. rewrite H. reflexivity.
  - intros h req H. unfold fixedStatusServer. rewrite H. discriminate.
Defined.

(** C3: on the server that answers 401 once, [CreateConcept] succeeds
    after one token exchange and stores the new token, but the request it
    sends again carries an empty body where the first carried the
    serialized Concept: the transport had read the reader to its end. *)
Theorem CreateConcept_retry_sends_empty_body :
  let run := CreateConcept renderURL acceptAll expiredOnceServer testConcept "testTask"
               (BuildState testClient []) in
  fst run = Returns None
  /\ accessToken (self (snd run)) = "fresh_token"
  /\ map (fun e => isTokenRequest (http.request e)) (history (snd run))
     = [false; true; false]
  /\ map (fun e => isUnauthorized (http.reply e)) (history (snd run))
     = [true; false; false]
  /\ map (fun e => http.Request.Body (http.request e)) (history (snd run))
     = [Some (fst (MarshalJSON testConcept));
        Some "grant_type=apikey&key=testAPIKey";
        Some ""].
Proof. vm_compute. repeat split. Qed.

Lemma CreateConcept_validates_first_witness :
  CreateConcept renderURL acceptAll (fixedStatusServer http.StatusOK emptyBody)
    (Concept.Build "" [] "" "Test Type" "Test Concept Schema" "" "" "" "" false)
    "testTask" (BuildState testClient [])
  = (Returns (Some (errors_New "input concept should have prefLaber defined")),
     BuildState testClient []).
Proof.
  apply (CreateConcept_validates_first renderURL acceptAll
           (fixedStatusServer http.StatusOK emptyBody)
           (Concept.Build "" [] "" "Test Type" "Test Concept Schema" "" "" "" "" false)).
  left. reflexivity.
Defined.

Lemma AddConceptMetadataField_test_request_witness :
  exists (sent : http.Exchange) (rest : list http.Exchange),
    history (snd (AddConceptMetadataField renderURL acceptAll
                    (fixedStatusServer http.StatusOK emptyBody)
                    "7bcfe07b-0fb1-49ce-a5fa-e51d5c01c3e0" "factsetIdentifier"
                    "0DR49W-E" "testTask" (BuildState testClient [])))
    = ([] ++ sent :: rest)%list
    /\ http.Request.Method (http.request sent) = "POST"
    /\ http.Request.URL (http.request sent)
       = "http://127.0.0.1:8080/sw/client/testClientID/api?path=task:testModel:testTask/%253Chttp%253A%252F%252Fwww.ft.com%252Fthing%252F7bcfe07b-0fb1-49ce-a5fa-e51d5c01c3e0%253E"
    /\ http.Request.Body (http.request sent)
       = Some (q "{'@id':'http://www.ft.com/thing/7bcfe07b-0fb1-49ce-a5fa-e51d5c01c3e0','http://www.ft.com/ontology/factsetIdentifier':'0DR49W-E'}").
Proof.
  exact (AddConceptMetadataField_test_request renderURL acceptAll
           (fixedStatusServer http.StatusOK emptyBody) "testTask"
           (BuildState testClient []) eq_refl).
Defined.

(** C7: on a server that answers every data request with a 500 and a JSON
    body, [GetConceptsWithCustomMetadata] returns the decoded graph and no
    error; with the body of an error message it returns the nil slice and
    no error. *)
Theorem GetConceptsWithCustomMetadata_ignores_status :
  fst (GetConceptsWithCustomMetadata joinElements renderURL acceptAll
         (fixedStatusServer http.StatusInternalServerError
            (inl (json.Object
                    [("@graph",
                      json.Array [json.Object
                                    [("@id", json.String_ "http://www.ft.com/thing/1")]])])))
         literalFloat keepLiteral
         "testTask" "http://www.ft.com/ontology/factsetIdentifier" "0DR49W-E"
         (BuildState testClient []))
  = Returns (Some [json.AMap [("@id", json.AString "http://www.ft.com/thing/1")]], None)
  /\ fst (GetConceptsWithCustomMetadata joinElements renderURL acceptAll
            (fixedStatusServer http.StatusInternalServerError
               (inl (json.Object [("message", json.String_ "Internal Server Error")])))
            literalFloat keepLiteral
            "testTask" "http://www.ft.com/ontology/factsetIdentifier" "0DR49W-E"
            (BuildState testClient []))
     = Returns (None, None).
Proof. vm_compute. split; reflexivity. Qed.

(** The same server makes the two other operations fail with the status. *)
Example CreateConcept_on_500 :
  fst (CreateConcept renderURL acceptAll
         (fixedStatusServer http.StatusInternalServerError emptyBody)
         testConcept "testTask" (BuildState testClient []))
  = Returns (Some (fmt_Errorf "failed creating new concept, returned status %v"
                     [ArgInt 500])).
Proof. vm_compute. reflexivity. Qed.

Example AddConceptMetadataField_on_500 :
  fst (AddConceptMetadataField renderURL acceptAll
         (fixedStatusServer http.StatusInternalServerError emptyBody)
         "conceptID" "factsetIdentifier" "factsetID" "testTask"
         (BuildState testClient []))
  = Returns (Some (fmt_Errorf "failed adding metadata to concept %s, returned status %v"
                     [ArgString "conceptID"; ArgInt 500])).
Proof. vm_compute. reflexivity. Qed.

Lemma NewClient_token_witness :
  fst (NewClient joinElements renderURL acceptAll
         (fixedStatusServer http.StatusOK emptyBody)
         testServerURL "testClientID" "testAPIKey" "testModel" [])
  = Returns (Some testClient, None)
  /\ exists err,
      fst (NewClient joinElements renderURL acceptAll noTokenServer
             testServerURL "testClientID" "testAPIKey" "testModel" [])
      = Returns (None, Some err).
Proof.
  split.
  - apply (NewClient_token joinElements renderURL acceptAll
             (fixedStatusServer http.StatusOK emptyBody)
             testServerURL "testClientID" "testAPIKey" "testModel" [] eq_refl
             (http.Response.Build http.StatusOK
                (inl (json.Object [("access_token", json.String_ "test_token")])))
             eq_refl);
      reflexivity.
  - apply (NewClient_token joinElements renderURL acceptAll noTokenServer
             testServerURL "testClientID" "testAPIKey" "testModel" [] eq_refl
             (http.Response.Build http.StatusUnauthorized emptyBody) eq_refl).
    left. discriminate.
Defined.

(** * Further properties *)

(** ** The bytes of a Concept *)


(** ** The token exchange and the construction of the client *)

Section FurtherClientProperties.

Variable path_Join : list string -> string.
Variable URL_String : url.URL -> string.
Variable NewRequestError : string -> string -> option error.
Variable Transport : list http.Exchange -> http.Request.t -> http.Result * nat.

Local Abbreviation getToken := (getAccessToken URL_String NewRequestError Transport).
Local Abbreviation loop := (authorizedLoop URL_String NewRequestError Transport).
Local Abbreviation tokenReq := (tokenRequest URL_String).
Local Abbreviation authorized :=
  (makeAuthorizedRequest URL_String NewRequestError Transport).
Local Abbreviation create := (CreateConcept URL_String NewRequestError Transport).
Local Abbreviation addField :=
  (AddConceptMetadataField URL_String NewRequestError Transport).
Local Abbreviation newClient :=
  (NewClient path_Join URL_String NewRequestError Transport).
Local Abbreviation opRequest := (operationRequest URL_String).

Lemma tokenRequestBody_form (c : Client) :
  tokenRequestBody c = "grant_type=apikey&key=" ++ url.QueryEscape (apiKey c).
Proof. reflexivity. Qed.

(** [getAccessToken] makes exactly one exchange, a POST to the token URL
    with the form [grant_type=apikey&key=<escaped key>] and no
    Authorization header; it leaves the client as it is, and returns the
    token exactly when the reply grants it, and the empty string with the
    error otherwise. *)
Theorem getAccessToken_single_form_request (st : State)
        (Hreq : NewRequestError http.MethodPost (URL_String (apiTokenURL (self st))) = None) :
  let req :=
    http.Request.Build "POST" (URL_String (apiTokenURL (self st)))
      [("Content-Type", "application/x-www-form-urlencoded")]
      (Some ("grant_type=apikey&key=" ++ url.QueryEscape (apiKey (self st)))) in
  let reply := fst (Transport (history st) req) in
  snd (getToken st) = BuildState (self st) (history st ++ [http.Sent req reply])
  /\ http.Header_Get (http.Request.Header_ req) "Authorization" = None
  /\ match fst (getToken st) with
     | Returns (token, None) => tokenGranted reply = Some token
     | Returns (token, Some _) => token = "" /\ tokenGranted reply = None
     | Panics _ => False
     end.
Proof.
  intros req reply.
  pose proof (getAccessToken_run URL_String NewRequestError Transport st Hreq) as Hrun.
  cbn zeta in Hrun. unfold tokenRequest, http.MethodPost in Hrun.
  rewrite tokenRequestBody_form in Hrun.
  fold req in Hrun. fold reply in Hrun.
  destruct (tokenGranted reply) as [token |].
  - rewrite Hrun. cbn [fst snd]. auto.
  - destruct Hrun as [err Hrun]. rewrite Hrun. cbn [fst snd]. auto.
Qed.


(** The client [NewClient] fills in before it asks for the token. *)
Local Abbreviation freshClient baseCloudURL clientID key modelName :=
  (BuildClient
     (url.setPath baseCloudURL
        (path_Join [url.Path baseCloudURL; "/sw/client/" ++ clientID ++ "/api"]))
     (url.setPath baseCloudURL (path_Join [url.Path baseCloudURL; "token"]))
     key modelName "").

(** When the token URL cannot be turned into a request, [NewClient] does
    not return the error: the header is set on the nil request and the call
    panics, before anything is sent. *)
Theorem NewClient_panics_on_unbuildable_request
        (baseCloudURL : url.URL) (clientID key modelName : string)
        (h : list http.Exchange) (err : error)
        (Hrejected :
           NewRequestError http.MethodPost
             (URL_String (url.setPath baseCloudURL
                            (path_Join [url.Path baseCloudURL; "token"])))
           = Some err) :
  newClient baseCloudURL clientID key modelName h = (Panics nilDereference, h).
Proof.
  unfold NewClient.
  rewrite (getAccessToken_rejected URL_String NewRequestError Transport
             (BuildState (freshClient baseCloudURL clientID key modelName) h) err Hrejected).
  reflexivity.
Qed.

(** [NewClient] derives the two URLs from the base URL, makes exactly one
    exchange, the token request, and returns either a client that stores
    the token granted, with no error, or no client and an error: never
    both and never neither. *)
Theorem NewClient_outcome (baseCloudURL : url.URL) (clientID key modelName : string)
        (h : list http.Exchange)
        (Hreq :
           NewRequestError http.MethodPost
             (URL_String (url.setPath baseCloudURL
                            (path_Join [url.Path baseCloudURL; "token"])))
           = None) :
  let client := freshClient baseCloudURL clientID key modelName in
  let reply := fst (Transport h (tokenReq client)) in
  let run := newClient baseCloudURL clientID key modelName h in
  snd run = (h ++ [http.Sent (tokenReq client) reply])%list
  /\ match fst run with
     | Returns (Some c, None) =>
       tokenGranted reply = Some (accessToken c)
       /\ c = setAccessToken client (accessToken c)
     | Returns (None, Some _) => tokenGranted reply = None
     | _ => False
     end.
Proof.
  intros client reply run.
  pose proof (getAccessToken_run URL_String NewRequestError Transport
                (BuildState client h) Hreq) as Hrun.
  cbn zeta in Hrun. cbn [self history] in Hrun. fold reply in Hrun.
  subst run. unfold NewClient. fold client.
  destruct (tokenGranted reply) as [token |].
  - rewrite Hrun. cbn. auto.
  - destruct Hrun as [err Hrun]. rewrite Hrun. cbn. auto.
Qed.

(** A reply of the token endpoint with a status other than 200 makes
    [NewClient] return, as it is, the error that carries the status. *)
Theorem NewClient_status_error (baseCloudURL : url.URL) (clientID key modelName : string)
        (h : list http.Exchange) (resp : http.Response.t)
        (Hreq :
           NewRequestError http.MethodPost
             (URL_String (url.setPath baseCloudURL
                            (path_Join [url.Path baseCloudURL; "token"])))
           = None)
        (Hreply :
           fst (Transport h (tokenReq (freshClient baseCloudURL clientID key modelName)))
           = http.Ok resp)
        (Hstatus : http.Response.StatusCode resp <> http.StatusOK) :
  fst (newClient baseCloudURL clientID key modelName h)
  = Returns (None,
             Some (fmt_Errorf "access token request returned http status %v"
                     [ArgInt (http.Response.StatusCode resp)])).
Proof.
  unfold NewClient, getAccessToken, bind, getSelf, NewRequestWithContext, requestMethod,
    Do, ret.
  cbn [self history String.eqb http.MethodPost Ascii.eqb Bool.eqb apiTokenURL].
  rewrite Hreq.
  change (http.Request.setHeader _ _ _)
    with (tokenReq (freshClient baseCloudURL clientID key modelName)).
  cbv beta iota zeta delta [self history].
  rewrite Hreply.
  apply Z.eqb_neq in Hstatus. rewrite Hstatus. reflexivity.
Qed.

Lemma decodeStringField_no_match (name : string) (members : list (string * json.Value)) :
  forallb (fun kv => negb (json.matchesField (fst kv) name)) members = true ->
  forall field saved,
    json.decodeStringField name members field saved = (field, saved).
Proof.
  induction members as [| [k v] members IH]; intros H field saved; [reflexivity |].
  cbn [forallb fst] in H. apply andb_true_iff in H as [Hk H].
  apply negb_true_iff in Hk. cbn [json.decodeStringField]. rewrite Hk. now apply IH.
Qed.

(** A 200 reply whose body is an object without a member for access_token
    is not an error: [NewClient] returns a client that stores the empty
    token. *)
Theorem NewClient_accepts_missing_token
        (baseCloudURL : url.URL) (clientID key modelName : string)
        (h : list http.Exchange) (members : list (string * json.Value))
        (Hreq :
           NewRequestError http.MethodPost
             (URL_String (url.setPath baseCloudURL
                            (path_Join [url.Path baseCloudURL; "token"])))
           = None)
        (Hreply :
           fst (Transport h (tokenReq (freshClient baseCloudURL clientID key modelName)))
           = http.Ok (http.Response.Build http.StatusOK (inl (json.Object members))))
        (Hmissing :
           forallb (fun kv => negb (json.matchesField (fst kv) "access_token")) members
           = true) :
  fst (newClient baseCloudURL clientID key modelName h)
  = Returns (Some (freshClient baseCloudURL clientID key modelName), None).
Proof.
  pose proof (getAccessToken_run URL_String NewRequestError Transport
                (BuildState (freshClient baseCloudURL clientID key modelName) h) Hreq)
    as Hrun.
  cbn zeta in Hrun. cbn [self history] in Hrun. rewrite Hreply in Hrun.
  cbn [tokenGranted http.Response.StatusCode http.Response.Body] in Hrun.
  unfold decodeTokenResp, json.DecodeStruct in Hrun.
  rewrite (decodeStringField_no_match _ _ Hmissing) in Hrun.
  cbn [Z.eqb http.StatusOK Pos.eqb] in Hrun.
  unfold NewClient. rewrite Hrun. reflexivity.
Qed.

(** ** The request layer under any server *)

Lemma attempts_app (a b : list http.Exchange) :
  attempts (a ++ b) = (attempts a ++ attempts b)%list.
Proof. unfold attempts. now rewrite filter_app, map_app. Qed.

Lemma tokenExchanges_app (a b : list http.Exchange) :
  tokenExchanges (a ++ b) = (tokenExchanges a ++ tokenExchanges b)%list.
Proof. unfold tokenExchanges. now rewrite filter_app. Qed.

(** What holds of a run of the loop, whatever the transport answers. *)
Lemma authorizedLoop_shape (method url : string) (n : nat) :
  forall (body : option string) (st : State),
    let run := loop n method url body st in
    (exists new,
        history (snd run) = (history st ++ new)%list
        /\ length (attempts new) <= n
        /\ length (tokenExchanges new) <= length (attempts new)
        /\ Forall (fun req => http.Request.Method req = requestMethod method
                              /\ http.Request.URL req = url) (attempts new))
    /\ match fst run with
       | Returns (Some resp, None) =>
         (http.Response.StatusCode resp =? http.StatusUnauthorized)%Z = false
       | Returns (None, None) => False
       | Returns (_, Some _) => True
       | Panics reason =>
         reason = nilDereference
         /\ NewRequestError http.MethodPost (URL_String (apiTokenURL (self st))) <> None
       end.
Proof.
  induction n as [| n IH]; intros body st; cbn zeta.
  - cbn. split; [| exact I]. exists []. rewrite app_nil_r. cbn. auto.
  - destruct (NewRequestError (requestMethod method) url) as [err |] eqn:E.
    { rewrite (loop_rejected URL_String NewRequestError Transport n method url body st err E).
      cbn [fst snd]. split; [| exact I].
      exists []. rewrite app_nil_r. cbn. auto with arith. }
    rewrite (loop_step URL_String NewRequestError Transport n method url body st E).
    cbn zeta.
    set (req := authorizedRequest method url body (accessToken (self st))).
    assert (Hdata : isTokenRequest req = false) by reflexivity.
    destruct (Transport (history st) req) as [r k]. cbn [fst snd].
    assert (Hone : forall r0,
               exists new,
                 (history st ++ [http.Sent req r0])%list = (history st ++ new)%list
                 /\ length (attempts new) <= S n
                 /\ length (tokenExchanges new) <= length (attempts new)
                 /\ Forall (fun req => http.Request.Method req = requestMethod method
                                       /\ http.Request.URL req = url) (attempts new)).
    { intros r0. exists [http.Sent req r0]. split; [reflexivity |].
      unfold attempts, tokenExchanges. cbn [filter http.request]. rewrite Hdata.
      cbn [negb map length http.request]. repeat split; auto with arith. }
    destruct r as [resp | resp err].
    2: { cbn [fst snd history]. split; [apply Hone | now destruct resp]. }
    destruct (http.Response.StatusCode resp =? http.StatusUnauthorized)%Z eqn:S401.
    2: { cbn [fst snd history]. split; [apply Hone | exact S401]. }
    set (st1 := BuildState (self st) (history st ++ [http.Sent req (http.Ok resp)])).
    destruct (NewRequestError http.MethodPost (URL_String (apiTokenURL (self st))))
      as [errT |] eqn:ET.
    { rewrite (getAccessToken_rejected URL_String NewRequestError Transport st1 errT ET).
      cbn [fst snd]. subst st1. cbn [history]. split; [apply Hone |].
      split; [reflexivity | congruence]. }
    pose proof (getAccessToken_run URL_String NewRequestError Transport st1 ET) as Hrun.
    cbn zeta in Hrun.
    set (eT := http.Sent (tokenReq (self st1))
                 (fst (Transport (history st1) (tokenReq (self st1))))) in *.
    assert (Htwo : forall rest,
               length (attempts rest) <= n ->
               length (tokenExchanges rest) <= length (attempts rest) ->
               Forall (fun req => http.Request.Method req = requestMethod method
                                  /\ http.Request.URL req = url) (attempts rest) ->
               length (attempts (http.Sent req (http.Ok resp) :: eT :: rest)) <= S n
               /\ length (tokenExchanges (http.Sent req (http.Ok resp) :: eT :: rest))
                  <= length (attempts (http.Sent req (http.Ok resp) :: eT :: rest))
               /\ Forall (fun req => http.Request.Method req = requestMethod method
                                     /\ http.Request.URL req = url)
                         (attempts (http.Sent req (http.Ok resp) :: eT :: rest))).
    { intros rest H1 H2 H3. unfold attempts, tokenExchanges in *.
      cbn [filter http.request]. rewrite Hdata. subst eT. cbn [http.request].
      rewrite (isTokenRequest_token URL_String).
      cbn [negb map length http.request].
      repeat split; auto with arith. }
    destruct (tokenGranted (http.reply eT)) as [token |] eqn:G;
      subst eT; cbn [http.reply] in G; rewrite G in Hrun.
    + rewrite Hrun. cbn [self history].
      match goal with
      | |- context [loop n method url ?b ?s] =>
        destruct (IH b s) as ((new & Hh & H1 & H2 & H3) & Hres)
      end.
      cbn [history self setAccessToken apiTokenURL] in Hh, Hres.
      split.
      * eexists (http.Sent req (http.Ok resp) :: _ :: new). split.
        -- rewrite Hh. subst st1. cbn [history self]. rewrite <- !app_assoc. reflexivity.
        -- now apply Htwo.
      * subst st1. cbn [self] in Hres. rewrite ET in Hres. exact Hres.
    + destruct Hrun as [err Hrun]. rewrite Hrun. cbn [fst snd history]. split; [| exact I].
      eexists [http.Sent req (http.Ok resp); _]. split.
      * subst st1. cbn [history self]. rewrite <- app_assoc. reflexivity.
      * apply (Htwo []); cbn; auto with arith.
Qed.

(** Whatever the servers answer, one call of [makeAuthorizedRequest] sends
    at most 3 data requests, all with the method and the URL it was given,
    and never more token requests than data requests. *)
Theorem makeAuthorizedRequest_bounded_traffic
        (method url : string) (body : option string) (st : State) :
  exists new,
    history (snd (authorized method url body st)) = (history st ++ new)%list
    /\ length (attempts new) <= 3
    /\ length (tokenExchanges new) <= length (attempts new)
    /\ Forall (fun req => http.Request.Method req = requestMethod method
                          /\ http.Request.URL req = url) (attempts new).
Proof. apply (authorizedLoop_shape method url MaxAccessFailures body st). Qed.

(** [makeAuthorizedRequest] never returns neither a response nor an error;
    a response returned without an error is never a 401; and it panics
    only if the token request cannot be built. *)
Theorem makeAuthorizedRequest_result_discipline
        (method url : string) (body : option string) (st : State) :
  match fst (authorized method url body st) with
  | Returns (Some resp, None) =>
    http.Response.StatusCode resp <> http.StatusUnauthorized
  | Returns (None, None) => False
  | Returns (_, Some _) => True
  | Panics reason =>
    reason = nilDereference
    /\ NewRequestError http.MethodPost (URL_String (apiTokenURL (self st))) <> None
  end.
Proof.
  destruct (authorizedLoop_shape method url MaxAccessFailures body st) as [_ H].
  cbn zeta in H. unfold makeAuthorizedRequest.
  destruct (fst (loop MaxAccessFailures method url body st)) as [[[resp |] [err |]] | reason];
    try exact H.
  now apply Z.eqb_neq.
Qed.

(** A 401 followed by a token exchange that grants nothing ends the call:
    two exchanges, no retry, the authentication error and no response, and
    the client as it was. *)
Theorem makeAuthorizedRequest_failed_refresh
        (method url : string) (body : option string) (st : State)
        (resp : http.Response.t)
        (Hreq : NewRequestError (requestMethod method) url = None)
        (Htok : NewRequestError http.MethodPost (URL_String (apiTokenURL (self st))) = None) :
  let req := authorizedRequest method url body (accessToken (self st)) in
  let h1 := (history st ++ [http.Sent req (http.Ok resp)])%list in
  let grant := fst (Transport h1 (tokenReq (self st))) in
  fst (Transport (history st) req) = http.Ok resp ->
  http.Response.StatusCode resp = http.StatusUnauthorized ->
  tokenGranted grant = None ->
  authorized method url body st
  = (Returns (None, Some authError),
     BuildState (self st) (h1 ++ [http.Sent (tokenReq (self st)) grant])).
Proof.
  intros req h1 grant H1 S1 Hg.
  unfold makeAuthorizedRequest, MaxAccessFailures.
  rewrite (loop_step URL_String NewRequestError Transport 2 method url body st Hreq).
  cbn zeta. fold req. rewrite H1, S1. cbn [Z.eqb http.StatusUnauthorized Pos.eqb].
  pose proof (getAccessToken_run URL_String NewRequestError Transport
                (BuildState (self st) (history st ++ [http.Sent req (http.Ok resp)]))
                Htok) as Hrun.
  cbn zeta in Hrun. cbn [self history] in Hrun. fold h1 in Hrun. fold grant in Hrun.
  rewrite Hg in Hrun. destruct Hrun as [err Hrun]. fold h1. rewrite Hrun. reflexivity.
Qed.

(** ** The operations under any server *)

(** The three ways a call of [makeAuthorizedRequest] ends after its first
    request. *)
Lemma authorized_answered (method url : string) (body : option string) (st : State)
      (resp : http.Response.t) :
  NewRequestError (requestMethod method) url = None ->
  let req := authorizedRequest method url body (accessToken (self st)) in
  fst (Transport (history st) req) = http.Ok resp ->
  http.Response.StatusCode resp <> http.StatusUnauthorized ->
  authorized method url body st
  = (Returns (Some resp, None),
     BuildState (self st) (history st ++ [http.Sent req (http.Ok resp)])).
Proof.
  intros Hreq req Hr Hs.
  apply (loop_answered URL_String NewRequestError Transport 2 method url body st resp Hreq Hr).
  now apply Z.eqb_neq.
Qed.

Lemma authorized_broken (method url : string) (body : option string) (st : State)
      (resp : option http.Response.t) (err : error) :
  NewRequestError (requestMethod method) url = None ->
  let req := authorizedRequest method url body (accessToken (self st)) in
  fst (Transport (history st) req) = http.Err resp err ->
  authorized method url body st
  = (Returns (resp, Some (fmt_Errorf "failed making authorized request: %w"
                            [ArgError err])),
     BuildState (self st) (history st ++ [http.Sent req (http.Err resp err)])).
Proof.
  intros Hreq req Hr. unfold makeAuthorizedRequest, MaxAccessFailures.
  rewrite (loop_step URL_String NewRequestError Transport 2 method url body st Hreq).
  cbn zeta. fold req. now rewrite Hr.
Qed.

Lemma authorized_rejected (method url : string) (body : option string) (st : State)
      (err : error) :
  NewRequestError (requestMethod method) url = Some err ->
  authorized method url body st
  = (Returns (None, Some (fmt_Errorf "failed creating authorized request: %w"
                            [ArgError err])), st).
Proof. apply (loop_rejected URL_String NewRequestError Transport 2). Qed.

(** Each operation, in terms of the call of the request layer it makes. *)
Lemma CreateConcept_valid (concept : Concept.t) (task : string) (st : State) :
  validConcept concept ->
  create concept task st
  = match authorized http.MethodPost
            (URL_String (url.setRawQuery (baseAPIURL (self st))
                           (createQuery (self st) task)))
            (Some (fst (MarshalJSON concept))) st with
    | (Returns (_, Some err), st') =>
      (Returns (Some (fmt_Errorf "failed creating new concept: %v" [ArgError err])), st')
    | (Returns (None, None), st') => (Panics nilDereference, st')
    | (Returns (Some resp, None), st') =>
      (Returns (if isSuccess (http.Response.StatusCode resp) then None
                else Some (fmt_Errorf "failed creating new concept, returned status %v"
                             [ArgInt (http.Response.StatusCode resp)])), st')
    | (Panics reason, st') => (Panics reason, st')
    end.
Proof.
  intros (Hp & Ht & Hs). unfold CreateConcept.
  apply String.eqb_neq in Hp, Ht. rewrite Hp, Ht.
  assert (Hsb : String.eqb (Concept.SchemaObject concept) ""
                && String.eqb (Concept.Broader concept) "" = false).
  { destruct Hs as [H | H]; apply String.eqb_neq in H; rewrite H;
      [reflexivity | apply andb_false_r]. }
  rewrite Hsb. unfold bind at 1. unfold getSelf at 1.
  change (json_Marshal_Concept concept) with (fst (MarshalJSON concept), @None error).
  cbv iota. unfold bind.
  match goal with
  | |- _ = match ?c with _ => _ end => set (call := c)
  end.
  change (makeAuthorizedRequest _ _ _ _ _ _ st) with call. clearbody call.
  destruct call as [[[[resp |] [err |]] | reason] st']; try reflexivity.
  now destruct (isSuccess (http.Response.StatusCode resp)).
Qed.

Lemma metadataBody_sorted (conceptID fieldName fieldValue : string) :
  json.encode
    (json.marshalStringMap
       (mapSet (mapSet [] "@id" (ConceptURIPrefix ++ "/" ++ conceptID))
               (MetadataFieldPrefix ++ "/" ++ fieldName) fieldValue))
  = metadataBody conceptID fieldName fieldValue.
Proof. reflexivity. Qed.

Lemma AddConceptMetadataField_call (conceptID fieldName fieldValue task : string)
      (st : State) :
  addField conceptID fieldName fieldValue task st
  = match authorized http.MethodPost
            (URL_String (url.setRawQuery (baseAPIURL (self st))
                           (metadataQuery (self st) task conceptID)))
            (Some (metadataBody conceptID fieldName fieldValue)) st with
    | (Returns (_, Some err), st') =>
      (Returns (Some (fmt_Errorf "failed adding metadata to concept %s: %v"
                        [ArgString conceptID; ArgError err])), st')
    | (Returns (None, None), st') => (Panics nilDereference, st')
    | (Returns (Some resp, None), st') =>
      (Returns (if isSuccess (http.Response.StatusCode resp) then None
                else Some (fmt_Errorf
                             "failed adding metadata to concept %s, returned status %v"
                             [ArgString conceptID;
                              ArgInt (http.Response.StatusCode resp)])), st')
    | (Panics reason, st') => (Panics reason, st')
    end.
Proof.
  unfold AddConceptMetadataField.
  unfold bind at 1. unfold getSelf at 1. cbv zeta.
  rewrite metadataBody_sorted. unfold bind.
  match goal with
  | |- _ = match ?c with _ => _ end => set (call := c)
  end.
  change (makeAuthorizedRequest _ _ _ _ _ _ st) with call. clearbody call.
  destruct call as [[[[resp |] [err |]] | reason] st']; try reflexivity.
  now destruct (isSuccess (http.Response.StatusCode resp)).
Qed.



(** The type float64 and [strconv.ParseFloat], for the decoder of the
    search. *)
Variable float64 : Type.
Variable ParseFloat : string -> option float64.

Local Abbreviation search :=
  (GetConceptsWithCustomMetadata path_Join URL_String NewRequestError Transport
     float64 ParseFloat).

Lemma searchQuery_encoded (c : Client) (task field value : string) :
  url.Encode
    (url.Add
       (url.Add
          (url.Add [] "path"
             (path_Join ["task:" ++ model c ++ ":" ++ task;
                         "skos:Concept"; "meta:transitiveInstance"]))
          "properties" "rdf:type,meta:displayName,[]")
       "filters" ("subject(<" ++ field ++ q ">='" ++ value ++ q "')"))
  = searchQuery path_Join c task field value.
Proof. reflexivity. Qed.

Lemma GetConceptsWithCustomMetadata_call (task field value : string) (st : State) :
  search task field value st
  = match authorized http.MethodGet
            (URL_String (url.setRawQuery (baseAPIURL (self st))
                           (searchQuery path_Join (self st) task field value)))
            None st with
    | (Returns (_, Some err), st') =>
      (Returns (None, Some (fmt_Errorf "failed to make search request: %w" [ArgError err])),
       st')
    | (Returns (None, None), st') => (Panics nilDereference, st')
    | (Returns (Some resp, None), st') =>
      (Returns (match decodeGraph float64 ParseFloat (http.Response.Body resp) with
                | inr err =>
                  (None, Some (fmt_Errorf "failed to read search response: %w"
                                 [ArgError err]))
                | inl graph => (graph, None)
                end), st')
    | (Panics reason, st') => (Panics reason, st')
    end.
Proof.
  unfold GetConceptsWithCustomMetadata.
  unfold bind at 1. unfold getSelf at 1. cbv zeta.
  rewrite searchQuery_encoded. unfold bind.
  match goal with
  | |- _ = match ?c with _ => _ end => set (call := c)
  end.
  change (makeAuthorizedRequest _ _ _ _ _ _ st) with call. clearbody call.
  destruct call as [[[[resp |] [err |]] | reason] st']; try reflexivity.
  now destruct (decodeGraph float64 ParseFloat (http.Response.Body resp))
    as [graph | e].
Qed.

(** [GetConceptsWithCustomMetadata], when the first reply is not a 401: one
    exchange, a GET without body whose raw query has the parameters
    filters, path and properties, in that order and escaped; the result is
    the decoded graph, or the decoding error and the nil slice. *)
Theorem GetConceptsWithCustomMetadata_answered (task field value : string) (st : State)
        (resp : http.Response.t) :
  let req :=
    requestTo URL_String (self st) "GET"
      ("filters="
       ++ url.QueryEscape ("subject(<" ++ field ++ q ">='" ++ value ++ q "')")
       ++ "&path="
       ++ url.QueryEscape (path_Join ["task:" ++ model (self st) ++ ":" ++ task;
                                      "skos:Concept"; "meta:transitiveInstance"])
       ++ "&properties=rdf%3Atype%2Cmeta%3AdisplayName%2C%5B%5D")
      None in
  NewRequestError "GET" (http.Request.URL req) = None ->
  fst (Transport (history st) req) = http.Ok resp ->
  http.Response.StatusCode resp <> http.StatusUnauthorized ->
  search task field value st
  = (Returns (match decodeGraph float64 ParseFloat (http.Response.Body resp) with
              | inr err =>
                (None, Some (fmt_Errorf "failed to read search response: %w"
                               [ArgError err]))
              | inl graph => (graph, None)
              end),
     BuildState (self st) (history st ++ [http.Sent req (http.Ok resp)])).
Proof.
  intros req Hreq Hreply Hstatus.
  rewrite (GetConceptsWithCustomMetadata_call task field value st).
  match goal with
  | |- context [makeAuthorizedRequest _ _ _ ?m ?u ?b st] =>
    now rewrite (authorized_answered m u b st resp Hreq Hreply Hstatus)
  end.
Qed.

Lemma decodeSliceField_no_match (name : string) (members : list (string * json.Value)) :
  forallb (fun kv => negb (json.matchesField (fst kv) name)) members = true ->
  forall field,
    json.decodeSliceField float64 ParseFloat name members field = inl field.
Proof.
  induction members as [| [k v] members IH]; intros H field; [reflexivity |].
  cbn [forallb fst] in H. apply andb_true_iff in H as [Hk H].
  apply negb_true_iff in Hk. cbn [json.decodeSliceField]. rewrite Hk. now apply IH.
Qed.

(** A reply whose body is an object without a member for @graph is not an
    error for [GetConceptsWithCustomMetadata]: it returns the nil slice. *)
Theorem GetConceptsWithCustomMetadata_missing_graph (task field value : string)
        (st : State) (status : Z) (members : list (string * json.Value)) :
  let req := opRequest (self st) http.MethodGet
               (searchQuery path_Join (self st) task field value) None in
  NewRequestError http.MethodGet (http.Request.URL req) = None ->
  fst (Transport (history st) req)
  = http.Ok (http.Response.Build status (inl (json.Object members))) ->
  status <> http.StatusUnauthorized ->
  forallb (fun kv => negb (json.matchesField (fst kv) "@graph")) members = true ->
  fst (search task field value st) = Returns (None, None).
Proof.
  intros req Hreq Hreply Hstatus Hmissing.
  rewrite (GetConceptsWithCustomMetadata_call task field value st).
  match goal with
  | |- context [makeAuthorizedRequest _ _ _ ?m ?u ?b st] =>
    rewrite (authorized_answered m u b st _ Hreq Hreply Hstatus)
  end.
  cbn [fst http.Response.Body]. unfold decodeGraph, json.DecodeResult.
  now rewrite (decodeSliceField_no_match _ _ Hmissing).
Qed.

(** A failure of the transport is not retried: the operation whose first
    request fails makes that one exchange and returns the error of the
    transport wrapped twice, by the request layer and by the operation. *)
Theorem operations_surface_transport_errors
        (concept : Concept.t) (conceptID fieldName fieldValue field value task : string)
        (st : State) :
  (forall (resp : option http.Response.t) (err : error),
      let req :=
        requestTo URL_String (self st) "POST"
          ("path=task:" ++ model (self st) ++ ":" ++ task ++ "/skos:Concept/rdf:instance")
          (Some (fst (MarshalJSON concept))) in
      validConcept concept ->
      NewRequestError "POST" (http.Request.URL req) = None ->
      fst (Transport (history st) req) = http.Err resp err ->
      create concept task st
      = (Returns (Some (fmt_Errorf "failed creating new concept: %v"
                          [ArgError (fmt_Errorf "failed making authorized request: %w"
                                       [ArgError err])])),
         BuildState (self st) (history st ++ [http.Sent req (http.Err resp err)])))
  /\ (forall (resp : option http.Response.t) (err : error),
         let req :=
           requestTo URL_String (self st) "POST"
             ("path=task:" ++ model (self st) ++ ":" ++ task ++ "/"
              ++ url.QueryEscape
                   (url.QueryEscape ("<http://www.ft.com/thing/" ++ conceptID ++ ">")))
             (Some (metadataBody conceptID fieldName fieldValue)) in
         NewRequestError "POST" (http.Request.URL req) = None ->
         fst (Transport (history st) req) = http.Err resp err ->
         addField conceptID fieldName fieldValue task st
         = (Returns (Some (fmt_Errorf "failed adding metadata to concept %s: %v"
                             [ArgString conceptID;
                              ArgError (fmt_Errorf "failed making authorized request: %w"
                                          [ArgError err])])),
            BuildState (self st) (history st ++ [http.Sent req (http.Err resp err)])))
  /\ (forall (resp : option http.Response.t) (err : error),
         let req :=
           requestTo URL_String (self st) "GET"
             (searchQuery path_Join (self st) task field value) None in
         NewRequestError "GET" (http.Request.URL req) = None ->
         fst (Transport (history st) req) = http.Err resp err ->
         search task field value st
         = (Returns (None,
                     Some (fmt_Errorf "failed to make search request: %w"
                             [ArgError (fmt_Errorf "failed making authorized request: %w"
                                          [ArgError err])])),
            BuildState (self st) (history st ++ [http.Sent req (http.Err resp err)]))).
Proof.
  split; [| split].
  - intros resp err req Hvalid Hreq Hbroken.
    rewrite (CreateConcept_valid concept task st Hvalid).
    match goal with
    | |- context [makeAuthorizedRequest _ _ _ ?m ?u ?b st] =>
      rewrite (authorized_broken m u b st resp err Hreq Hbroken)
    end.
    now destruct resp.
  - intros resp err req Hreq Hbroken.
    rewrite (AddConceptMetadataField_call conceptID fieldName fieldValue task st).
    match goal with
    | |- context [makeAuthorizedRequest _ _ _ ?m ?u ?b st] =>
      rewrite (authorized_broken m u b st resp err Hreq Hbroken)
    end.
    now destruct resp.
  - intros resp err req Hreq Hbroken.
    rewrite (GetConceptsWithCustomMetadata_call task field value st).
    match goal with
    | |- context [makeAuthorizedRequest _ _ _ ?m ?u ?b st] =>
      rewrite (authorized_broken m u b st resp err Hreq Hbroken)
    end.
    now destruct resp.
Qed.

(** When the request of an operation cannot be built, the operation
    returns the error of the constructor wrapped twice and sends nothing. *)
Theorem operations_send_nothing_when_rejected
        (concept : Concept.t) (conceptID fieldName fieldValue field value task : string)
        (st : State) :
  (forall err : error,
      validConcept concept ->
      NewRequestError "POST"
        (http.Request.URL
           (requestTo URL_String (self st) "POST"
              ("path=task:" ++ model (self st) ++ ":" ++ task
               ++ "/skos:Concept/rdf:instance") None))
      = Some err ->
      create concept task st
      = (Returns (Some (fmt_Errorf "failed creating new concept: %v"
                          [ArgError (fmt_Errorf "failed creating authorized request: %w"
                                       [ArgError err])])), st))
  /\ (forall err : error,
         NewRequestError "POST"
           (http.Request.URL
              (requestTo URL_String (self st) "POST"
                 ("path=task:" ++ model (self st) ++ ":" ++ task ++ "/"
                  ++ url.QueryEscape
                       (url.QueryEscape ("<http://www.ft.com/thing/" ++ conceptID ++ ">")))
                 None))
         = Some err ->
         addField conceptID fieldName fieldValue task st
         = (Returns (Some (fmt_Errorf "failed adding metadata to concept %s: %v"
                             [ArgString conceptID;
                              ArgError (fmt_Errorf
                                          "failed creating authorized request: %w"
                                          [ArgError err])])), st))
  /\ (forall err : error,
         NewRequestError "GET"
           (http.Request.URL
              (requestTo URL_String (self st) "GET"
                 (searchQuery path_Join (self st) task field value) None))
         = Some err ->
         search task field value st
         = (Returns (None,
                     Some (fmt_Errorf "failed to make search request: %w"
                             [ArgError (fmt_Errorf
                                          "failed creating authorized request: %w"
                                          [ArgError err])])), st)).
Proof.
  split; [| split].
  - intros err Hvalid Hrejected.
    rewrite (CreateConcept_valid concept task st Hvalid).
    match goal with
    | |- context [makeAuthorizedRequest _ _ _ ?m ?u ?b st] =>
      now rewrite (authorized_rejected m u b st err Hrejected)
    end.
  - intros err Hrejected.
    rewrite (AddConceptMetadataField_call conceptID fieldName fieldValue task st).
    match goal with
    | |- context [makeAuthorizedRequest _ _ _ ?m ?u ?b st] =>
      now rewrite (authorized_rejected m u b st err Hrejected)
    end.
  - intros err Hrejected.
    rewrite (GetConceptsWithCustomMetadata_call task field value st).
    match goal with
    | |- context [makeAuthorizedRequest _ _ _ ?m ?u ?b st] =>
      now rewrite (authorized_rejected m u b st err Hrejected)
    end.
Qed.

Lemma onlyTokenRefreshed_refl (st : State) : onlyTokenRefreshed st st.
Proof.
  unfold onlyTokenRefreshed. repeat split. exists []. now rewrite app_nil_r.
Qed.

Lemma authorized_only_refreshes (method url : string) (body : option string) (st : State) :
  onlyTokenRefreshed st (snd (authorized method url body st)).
Proof.
  destruct (authorizedLoop_frame URL_String NewRequestError Transport
              MaxAccessFailures method url body st)
    as ((B & T & K & M) & new & Hh & Ht & _).
  unfold onlyTokenRefreshed, makeAuthorizedRequest. repeat split; try assumption.
  now exists new.
Qed.

Lemma validConcept_cases (concept : Concept.t) :
  validConcept concept
  \/ exists e, forall task st, create concept task st = (Returns (Some e), st).
Proof.
  unfold validConcept, CreateConcept.
  destruct (String.eqb_spec (Concept.PrefLabel concept) "") as [Hp | Hp];
    [right; eexists; reflexivity |].
  destruct (String.eqb_spec (Concept.SchemaObject concept) "") as [Hs | Hs];
    destruct (String.eqb_spec (Concept.Broader concept) "") as [Hb | Hb];
    cbn [andb]; try (right; eexists; reflexivity);
    (destruct (String.eqb_spec (Concept.Type_ concept) "") as [Ht | Ht];
     [right; eexists; reflexivity | left; auto]).
Qed.

(** The final state of an operation is the one its call of the request
    layer leaves, unless validation stopped it before. *)
Lemma operation_states (concept : Concept.t)
      (conceptID fieldName fieldValue field value task : string) (st : State) :
  (snd (create concept task st) = st
   \/ exists method url body,
       snd (create concept task st) = snd (authorized method url body st))
  /\ (exists method url body,
         snd (addField conceptID fieldName fieldValue task st)
         = snd (authorized method url body st))
  /\ (exists method url body,
         snd (search task field value st) = snd (authorized method url body st)).
Proof.
  split; [| split].
  - destruct (validConcept_cases concept) as [Hvalid | [e He]].
    + right. rewrite (CreateConcept_valid concept task st Hvalid).
      match goal with
      | |- context [makeAuthorizedRequest _ _ _ ?m ?u ?b st] =>
        exists m, u, b;
        destruct (makeAuthorizedRequest URL_String NewRequestError Transport m u b st)
          as [[[[resp |] [err |]] | reason] st']
      end; reflexivity.
    + left. now rewrite He.
  - rewrite (AddConceptMetadataField_call conceptID fieldName fieldValue task st).
    match goal with
    | |- context [makeAuthorizedRequest _ _ _ ?m ?u ?b st] =>
      exists m, u, b;
      destruct (makeAuthorizedRequest URL_String NewRequestError Transport m u b st)
        as [[[[resp |] [err |]] | reason] st']
    end; reflexivity.
  - rewrite (GetConceptsWithCustomMetadata_call task field value st).
    match goal with
    | |- context [makeAuthorizedRequest _ _ _ ?m ?u ?b st] =>
      exists m, u, b;
      destruct (makeAuthorizedRequest URL_String NewRequestError Transport m u b st)
        as [[[[resp |] [err |]] | reason] st']
    end; reflexivity.
Qed.

(** Whatever the servers answer and whatever it returns, an operation
    changes nothing of the client but the stored token, which ends as the
    token granted last during the call; the history of exchanges only
    grows. *)
Theorem operations_only_refresh_token (concept : Concept.t)
        (conceptID fieldName fieldValue field value task : string) (st : State) :
  onlyTokenRefreshed st (snd (create concept task st))
  /\ onlyTokenRefreshed st (snd (addField conceptID fieldName fieldValue task st))
  /\ onlyTokenRefreshed st (snd (search task field value st)).
Proof.
  destruct (operation_states concept conceptID fieldName fieldValue field value task st)
    as ([Hc | (m1 & u1 & b1 & Hc)] & (m2 & u2 & b2 & Ha) & (m3 & u3 & b3 & Hs));
    rewrite Hc, Ha, Hs;
    repeat split;
    first [apply onlyTokenRefreshed_refl | apply authorized_only_refreshes].
Qed.

(** As long as the token URL can be turned into a request, no operation
    panics: each returns, whatever the servers answer. *)
Theorem operations_never_panic (concept : Concept.t)
        (conceptID fieldName fieldValue field value task : string) (st : State)
        (Htok : NewRequestError http.MethodPost (URL_String (apiTokenURL (self st)))
                = None) :
  (exists r, fst (create concept task st) = Returns r)
  /\ (exists r, fst (addField conceptID fieldName fieldValue task st) = Returns r)
  /\ (exists r, fst (search task field value st) = Returns r).
Proof.
  assert (Hcall : forall method url body,
             match authorized method url body st with
             | (Returns (None, None), _) | (Panics _, _) => False
             | _ => True
             end).
  { intros method url body.
    destruct (authorizedLoop_shape method url MaxAccessFailures body st) as [_ H].
    cbn zeta in H. unfold makeAuthorizedRequest.
    destruct (loop MaxAccessFailures method url body st)
      as [[[[resp |] [err |]] | reason] st']; cbn [fst] in H; try exact I; try exact H.
    destruct H as [_ H]. now apply H. }
  split; [| split].
  - destruct (validConcept_cases concept) as [Hvalid | [e He]].
    + rewrite (CreateConcept_valid concept task st Hvalid).
      match goal with
      | |- context [makeAuthorizedRequest _ _ _ ?m ?u ?b st] =>
        specialize (Hcall m u b);
        destruct (makeAuthorizedRequest URL_String NewRequestError Transport m u b st)
          as [[[[resp |] [err |]] | reason] st']
      end; try (now elim Hcall); eexists; reflexivity.
    + rewrite He. eexists; reflexivity.
  - rewrite (AddConceptMetadataField_call conceptID fieldName fieldValue task st).
    match goal with
    | |- context [makeAuthorizedRequest _ _ _ ?m ?u ?b st] =>
      specialize (Hcall m u b);
      destruct (makeAuthorizedRequest URL_String NewRequestError Transport m u b st)
        as [[[[resp |] [err |]] | reason] st']
    end; try (now elim Hcall); eexists; reflexivity.
  - rewrite (GetConceptsWithCustomMetadata_call task field value st).
    match goal with
    | |- context [makeAuthorizedRequest _ _ _ ?m ?u ?b st] =>
      specialize (Hcall m u b);
      destruct (makeAuthorizedRequest URL_String NewRequestError Transport m u b st)
        as [[[[resp |] [err |]] | reason] st']
    end; try (now elim Hcall); eexists; reflexivity.
Qed.

End FurtherClientProperties.

(** ** Escaping *)





(** ** The further properties on the test servers *)

Lemma getAccessToken_single_form_request_witness :
  snd (getAccessToken renderURL acceptAll (fixedStatusServer http.StatusOK emptyBody)
         (BuildState testClient []))
  = BuildState testClient
      [http.Sent
         (http.Request.Build "POST" "http://127.0.0.1:8080/token"
            [("Content-Type", "application/x-www-form-urlencoded")]
            (Some "grant_type=apikey&key=testAPIKey"))
         (tokenReply "test_token")].
Proof.
  apply (getAccessToken_single_form_request renderURL acceptAll
           (fixedStatusServer http.StatusOK emptyBody) (BuildState testClient [])).
  reflexivity.
Defined.

Lemma NewClient_panics_on_unbuildable_request_witness :
  NewClient joinElements renderURL (rejectURL "http://127.0.0.1:8080/token")
    (fixedStatusServer http.StatusOK emptyBody)
    testServerURL "testClientID" "testAPIKey" "testModel" []
  = (Panics nilDereference, []).
Proof.
  apply (NewClient_panics_on_unbuildable_request joinElements renderURL
           (rejectURL "http://127.0.0.1:8080/token")
           (fixedStatusServer http.StatusOK emptyBody)
           testServerURL "testClientID" "testAPIKey" "testModel" []
           (Foreign "net/url" "invalid URL")).
  reflexivity.
Defined.

Lemma NewClient_outcome_witness :
  snd (NewClient joinElements renderURL acceptAll
         (fixedStatusServer http.StatusOK emptyBody)
         testServerURL "testClientID" "testAPIKey" "testModel" [])
  = [http.Sent
       (http.Request.Build "POST" "http://127.0.0.1:8080/token"
          [("Content-Type", "application/x-www-form-urlencoded")]
          (Some "grant_type=apikey&key=testAPIKey"))
       (tokenReply "test_token")].
Proof.
  apply (NewClient_outcome joinElements renderURL acceptAll
           (fixedStatusServer http.StatusOK emptyBody)
           testServerURL "testClientID" "testAPIKey" "testModel" []).
  reflexivity.
Defined.

Lemma NewClient_status_error_witness :
  fst (NewClient joinElements renderURL acceptAll noTokenServer
         testServerURL "testClientID" "testAPIKey" "testModel" [])
  = Returns (None,
             Some (fmt_Errorf "access token request returned http status %v"
                     [ArgInt 401])).
Proof.
  apply (NewClient_status_error joinElements renderURL acceptAll noTokenServer
           testServerURL "testClientID" "testAPIKey" "testModel" []
           (http.Response.Build http.StatusUnauthorized emptyBody)).
  - reflexivity.
  - reflexivity.
  - discriminate.
Defined.

Lemma NewClient_accepts_missing_token_witness :
  fst (NewClient joinElements renderURL acceptAll emptyObjectServer
         testServerURL "testClientID" "testAPIKey" "testModel" [])
  = Returns (Some (setAccessToken testClient ""), None).
Proof.
  apply (NewClient_accepts_missing_token joinElements renderURL acceptAll
           emptyObjectServer testServerURL "testClientID" "testAPIKey" "testModel" [] []).
  - reflexivity.
  - reflexivity.
  - reflexivity.
Defined.

Lemma makeAuthorizedRequest_failed_refresh_witness :
  fst (makeAuthorizedRequest renderURL acceptAll noTokenServer http.MethodPost
         "http://127.0.0.1:8080/sw/client/testClientID/api" (Some "{}")
         (BuildState testClient []))
  = Returns (None, Some authError).
Proof.
  rewrite (makeAuthorizedRequest_failed_refresh renderURL acceptAll noTokenServer
             http.MethodPost "http://127.0.0.1:8080/sw/client/testClientID/api"
             (Some "{}") (BuildState testClient [])
             (http.Response.Build http.StatusUnauthorized emptyBody)
             eq_refl eq_refl eq_refl eq_refl eq_refl).
  reflexivity.
Defined.

Lemma retry_after_one_401_witness :
  makeAuthorizedRequest renderURL acceptAll expiredOnceServer http.MethodPost
    "http://127.0.0.1:8080/sw/client/testClientID/api" (Some "{}")
    (BuildState testClient [])
  = (Returns (Some (http.Response.Build http.StatusOK emptyBody), None),
     BuildState (setAccessToken testClient "fresh_token")
       [http.Sent (authorizedRequest http.MethodPost
                     "http://127.0.0.1:8080/sw/client/testClientID/api" (Some "{}")
                     "test_token")
                  (statusReply http.StatusUnauthorized emptyBody);
        http.Sent (tokenRequest renderURL testClient) (tokenReply "fresh_token");
        http.Sent (authorizedRequest http.MethodPost
                     "http://127.0.0.1:8080/sw/client/testClientID/api" (Some "")
                     "fresh_token")
                  (statusReply http.StatusOK emptyBody)]).
Proof.
  apply (retry_after_one_401 renderURL acceptAll expiredOnceServer http.MethodPost
           "http://127.0.0.1:8080/sw/client/testClientID/api" (Some "{}")
           (BuildState testClient [])
           (http.Response.Build http.StatusUnauthorized emptyBody)
           (http.Response.Build http.StatusOK emptyBody) "fresh_token");
    first [reflexivity | discriminate].
Defined.

Lemma testConcept_valid : validConcept testConcept.
Proof. repeat split; try discriminate. left. discriminate. Defined.




Lemma GetConceptsWithCustomMetadata_answered_witness :
  GetConceptsWithCustomMetadata joinElements renderURL acceptAll
    (fixedStatusServer http.StatusOK
       (inl (json.Object [("@graph", json.Array testGraphBody)])))
    literalFloat keepLiteral
    "testTask" "http://www.ft.com/ontology/factsetIdentifier" "0DR49W-E"
    (BuildState testClient [])
  = (Returns (Some [json.AMap [("@id", json.AString "http://www.ft.com/thing/1")]],
              None),
     BuildState testClient
       [http.Sent
          (http.Request.Build "GET"
             "http://127.0.0.1:8080/sw/client/testClientID/api?filters=subject%28%3Chttp%3A%2F%2Fwww.ft.com%2Fontology%2FfactsetIdentifier%3E%3D%220DR49W-E%22%29&path=task%3AtestModel%3AtestTask%2Fskos%3AConcept%2Fmeta%3AtransitiveInstance&properties=rdf%3Atype%2Cmeta%3AdisplayName%2C%5B%5D"
             [("Authorization", "Bearer test_token");
              ("Content-Type", "application/ld+json")]
             None)
          (http.Ok (http.Response.Build 200
                      (inl (json.Object [("@graph", json.Array testGraphBody)]))))]).
Proof.
  refine (GetConceptsWithCustomMetadata_answered joinElements renderURL acceptAll
            (fixedStatusServer http.StatusOK
               (inl (json.Object [("@graph", json.Array testGraphBody)])))
            literalFloat keepLiteral
            "testTask" "http://www.ft.com/ontology/factsetIdentifier" "0DR49W-E"
            (BuildState testClient [])
            (http.Response.Build http.StatusOK
               (inl (json.Object [("@graph", json.Array testGraphBody)])))
            eq_refl eq_refl _).
  discriminate.
Defined.

Lemma GetConceptsWithCustomMetadata_missing_graph_witness :
  fst (GetConceptsWithCustomMetadata joinElements renderURL acceptAll emptyObjectServer
         literalFloat keepLiteral
         "testTask" "http://www.ft.com/ontology/factsetIdentifier" "0DR49W-E"
         (BuildState testClient []))
  = Returns (None, None).
Proof.
  apply (GetConceptsWithCustomMetadata_missing_graph joinElements renderURL acceptAll
           emptyObjectServer literalFloat keepLiteral
           "testTask" "http://www.ft.com/ontology/factsetIdentifier" "0DR49W-E"
           (BuildState testClient []) http.StatusOK []).
  - reflexivity.
  - reflexivity.
  - discriminate.
  - reflexivity.
Defined.

Lemma operations_surface_transport_errors_witness :
  CreateConcept renderURL acceptAll brokenTransport testConcept "testTask"
    (BuildState testClient [])
  = (Returns (Some (fmt_Errorf "failed creating new concept: %v"
                      [ArgError (fmt_Errorf "failed making authorized request: %w"
                                   [ArgError connectionRefused])])),
     BuildState testClient
       [http.Sent
          (http.Request.Build "POST"
             "http://127.0.0.1:8080/sw/client/testClientID/api?path=task:testModel:testTask/skos:Concept/rdf:instance"
             [("Authorization", "Bearer test_token");
              ("Content-Type", "application/ld+json")]
             (Some (q "{'skosxl:prefLabel':[{'skosxl:literalForm':[{'@value':'Test Pref Label','@language':'en'}],'@type':['skosxl:Label']}],'@type':['skos:Concept','Test Type'],'skos:topConceptOf':{'@id':'Test Concept Schema'}}")))
          (http.Err None connectionRefused)])
  /\ AddConceptMetadataField renderURL acceptAll brokenTransport
       "conceptID" "factsetIdentifier" "factsetID" "testTask" (BuildState testClient [])
     = (Returns (Some (fmt_Errorf "failed adding metadata to concept %s: %v"
                         [ArgString "conceptID";
                          ArgError (fmt_Errorf "failed making authorized request: %w"
                                      [ArgError connectionRefused])])),
        BuildState testClient
          [http.Sent
             (http.Request.Build "POST"
                "http://127.0.0.1:8080/sw/client/testClientID/api?path=task:testModel:testTask/%253Chttp%253A%252F%252Fwww.ft.com%252Fthing%252FconceptID%253E"
                [("Authorization", "Bearer test_token");
                 ("Content-Type", "application/ld+json")]
                (Some (q "{'@id':'http://www.ft.com/thing/conceptID','http://www.ft.com/ontology/factsetIdentifier':'factsetID'}")))
             (http.Err None connectionRefused)])
  /\ GetConceptsWithCustomMetadata joinElements renderURL acceptAll brokenTransport
       literalFloat keepLiteral
       "testTask" "http://www.ft.com/ontology/factsetIdentifier" "0DR49W-E"
       (BuildState testClient [])
     = (Returns (None,
                 Some (fmt_Errorf "failed to make search request: %w"
                         [ArgError (fmt_Errorf "failed making authorized request: %w"
                                      [ArgError connectionRefused])])),
        BuildState testClient
          [http.Sent
             (http.Request.Build "GET"
                "http://127.0.0.1:8080/sw/client/testClientID/api?filters=subject%28%3Chttp%3A%2F%2Fwww.ft.com%2Fontology%2FfactsetIdentifier%3E%3D%220DR49W-E%22%29&path=task%3AtestModel%3AtestTask%2Fskos%3AConcept%2Fmeta%3AtransitiveInstance&properties=rdf%3Atype%2Cmeta%3AdisplayName%2C%5B%5D"
                [("Authorization", "Bearer test_token");
                 ("Content-Type", "application/ld+json")]
                None)
             (http.Err None connectionRefused)]).
Proof.
  pose proof (operations_surface_transport_errors joinElements renderURL acceptAll
                brokenTransport literalFloat keepLiteral testConcept
                "conceptID" "factsetIdentifier" "factsetID"
                "http://www.ft.com/ontology/factsetIdentifier" "0DR49W-E" "testTask"
                (BuildState testClient [])) as (Hcreate & HaddField & Hsearch).
  split; [| split].
  - exact (Hcreate None connectionRefused testConcept_valid eq_refl eq_refl).
  - exact (HaddField None connectionRefused eq_refl eq_refl).
  - exact (Hsearch None connectionRefused eq_refl eq_refl).
Defined.

Lemma operations_send_nothing_when_rejected_witness :
  CreateConcept renderURL
    (rejectURL "http://127.0.0.1:8080/sw/client/testClientID/api?path=task:testModel:testTask/skos:Concept/rdf:instance")
    (fixedStatusServer http.StatusOK emptyBody) testConcept "testTask"
    (BuildState testClient [])
  = (Returns (Some (fmt_Errorf "failed creating new concept: %v"
                      [ArgError (fmt_Errorf "failed creating authorized request: %w"
                                   [ArgError (Foreign "net/url" "invalid URL")])])),
     BuildState testClient [])
  /\ AddConceptMetadataField renderURL
       (rejectURL "http://127.0.0.1:8080/sw/client/testClientID/api?path=task:testModel:testTask/%253Chttp%253A%252F%252Fwww.ft.com%252Fthing%252FconceptID%253E")
       (fixedStatusServer http.StatusOK emptyBody)
       "conceptID" "factsetIdentifier" "factsetID" "testTask" (BuildState testClient [])
     = (Returns (Some (fmt_Errorf "failed adding metadata to concept %s: %v"
                         [ArgString "conceptID";
                          ArgError (fmt_Errorf "failed creating authorized request: %w"
                                      [ArgError (Foreign "net/url" "invalid URL")])])),
        BuildState testClient [])
  /\ GetConceptsWithCustomMetadata joinElements renderURL
       (rejectURL "http://127.0.0.1:8080/sw/client/testClientID/api?filters=subject%28%3Chttp%3A%2F%2Fwww.ft.com%2Fontology%2FfactsetIdentifier%3E%3D%220DR49W-E%22%29&path=task%3AtestModel%3AtestTask%2Fskos%3AConcept%2Fmeta%3AtransitiveInstance&properties=rdf%3Atype%2Cmeta%3AdisplayName%2C%5B%5D")
       (fixedStatusServer http.StatusOK emptyBody) literalFloat keepLiteral
       "testTask" "http://www.ft.com/ontology/factsetIdentifier" "0DR49W-E"
       (BuildState testClient [])
     = (Returns (None,
                 Some (fmt_Errorf "failed to make search request: %w"
                         [ArgError (fmt_Errorf "failed creating authorized request: %w"
                                      [ArgError (Foreign "net/url" "invalid URL")])])),
        BuildState testClient []).
Proof.
  split; [| split].
  - exact (proj1 (operations_send_nothing_when_rejected joinElements renderURL
                    (rejectURL "http://127.0.0.1:8080/sw/client/testClientID/api?path=task:testModel:testTask/skos:Concept/rdf:instance")
                    (fixedStatusServer http.StatusOK emptyBody) literalFloat keepLiteral
                    testConcept "conceptID" "factsetIdentifier" "factsetID"
                    "http://www.ft.com/ontology/factsetIdentifier" "0DR49W-E" "testTask"
                    (BuildState testClient []))
             (Foreign "net/url" "invalid URL") testConcept_valid eq_refl).
  - exact (proj1 (proj2 (operations_send_nothing_when_rejected joinElements renderURL
                           (rejectURL "http://127.0.0.1:8080/sw/client/testClientID/api?path=task:testModel:testTask/%253Chttp%253A%252F%252Fwww.ft.com%252Fthing%252FconceptID%253E")
                           (fixedStatusServer http.StatusOK emptyBody)
                           literalFloat keepLiteral
                           testConcept "conceptID" "factsetIdentifier" "factsetID"
                           "http://www.ft.com/ontology/factsetIdentifier" "0DR49W-E"
                           "testTask" (BuildState testClient [])))
             (Foreign "net/url" "invalid URL") eq_refl).
  - exact (proj2 (proj2 (operations_send_nothing_when_rejected joinElements renderURL
                           (rejectURL "http://127.0.0.1:8080/sw/client/testClientID/api?filters=subject%28%3Chttp%3A%2F%2Fwww.ft.com%2Fontology%2FfactsetIdentifier%3E%3D%220DR49W-E%22%29&path=task%3AtestModel%3AtestTask%2Fskos%3AConcept%2Fmeta%3AtransitiveInstance&properties=rdf%3Atype%2Cmeta%3AdisplayName%2C%5B%5D")
                           (fixedStatusServer http.StatusOK emptyBody)
                           literalFloat keepLiteral
                           testConcept "conceptID" "factsetIdentifier" "factsetID"
                           "http://www.ft.com/ontology/factsetIdentifier" "0DR49W-E"
                           "testTask" (BuildState testClient [])))
             (Foreign "net/url" "invalid URL") eq_refl).
Defined.

Lemma operations_never_panic_witness :
  exists r,
    fst (CreateConcept renderURL acceptAll
           (fixedStatusServer http.StatusUnauthorized emptyBody)
           testConcept "testTask" (BuildState testClient []))
    = Returns r.
Proof.
  exact (proj1 (operations_never_panic joinElements renderURL acceptAll
                  (fixedStatusServer http.StatusUnauthorized emptyBody)
                  literalFloat keepLiteral
                  testConcept "conceptID" "factsetIdentifier" "factsetID" "field" "value"
                  "testTask" (BuildState testClient []) eq_refl)).
Defined.

(** What the decoder makes of some bodies: the empty array is the empty
    slice and null the nil slice; the later of two members for the field
    wins, and so does the later of two entries of a map; the name of the
    member is matched whatever its case; a number is converted, and a
    value that is not an array is an error. *)
Example test_decodeGraph_cases :
  map (decodeGraph literalFloat rejectHuge)
      [inl (json.Object [("@graph", json.Array [])]);
       inl (json.Object [("@graph", json.Null)]);
       inl (json.Object [("@graph", json.Array [json.Number "1"]);
                         ("@Graph", json.Array [json.Bool true; json.Null])]);
       inl (json.Object
              [("@graph",
                json.Array [json.Object [("b", json.Number "1");
                                         ("a", json.Array []);
                                         ("b", json.String_ "x")]])]);
       inl (json.Object [("@graph", json.String_ "none")]);
       inl (json.Array []);
       inl json.Null;
       inr (Foreign "io" "EOF")]
  = [inl (Some []);
     inl None;
     inl (Some [json.ABool true; json.ANil]);
     inl (Some [json.AMap [("a", json.ASlice []); ("b", json.AString "x")]]);
     inr (Foreign "json.UnmarshalTypeError" "string");
     inr (Foreign "json.UnmarshalTypeError" "array");
     inl None;
     inr (Foreign "io" "EOF")].
Proof. vm_compute. reflexivity. Qed.

(** A number of the graph that does not fit a float64 makes the search
    fail, after the whole body has been read. *)
Example test_GetConceptsWithCustomMetadata_number_out_of_range :
  fst (GetConceptsWithCustomMetadata joinElements renderURL acceptAll
         (fixedStatusServer http.StatusOK
            (inl (json.Object [("@graph", json.Array [json.Number "1";
                                                      json.Number "1e400"])])))
         literalFloat rejectHuge
         "testTask" "http://www.ft.com/ontology/factsetIdentifier" "0DR49W-E"
         (BuildState testClient []))
  = Returns (None,
             Some (fmt_Errorf "failed to read search response: %w"
                     [ArgError (Foreign "json.UnmarshalTypeError" "number 1e400")])).
Proof. vm_compute. reflexivity. Qed.

(** ** The cases of client_test.go *)

Example test_NewClient_success :
  fst (NewClient joinElements renderURL acceptAll
         (fixedStatusServer http.StatusOK emptyBody)
         testServerURL "test" "test" "test" [])
  = Returns (Some (BuildClient (url.setPath testServerURL "/sw/client/test/api")
                     (url.setPath testServerURL "token") "test" "test" "test_token"),
             None).
Proof. vm_compute. reflexivity. Qed.

Example test_NewClient_cannot_get_access_token :
  fst (NewClient joinElements renderURL acceptAll noTokenServer
         testServerURL "test" "test" "test" [])
  = Returns (None, Some (fmt_Errorf "access token request returned http status %v"
                           [ArgInt 401])).
Proof. vm_compute. reflexivity. Qed.

Example test_AddConceptMetadataField_statuses :
  map (fun status =>
         fst (AddConceptMetadataField renderURL acceptAll
                (fixedStatusServer status emptyBody)
                "conceptID" "factsetIdentifier" "factsetID" "testTask"
                (BuildState testClient [])))
      [http.StatusOK; http.StatusCreated; http.StatusInternalServerError]
  = [Returns None; Returns None;
     Returns (Some (fmt_Errorf "failed adding metadata to concept %s, returned status %v"
                      [ArgString "conceptID"; ArgInt 500]))].
Proof. vm_compute. reflexivity. Qed.

Example test_CreateConcept_cases :
  map (fun concept =>
         fst (CreateConcept renderURL acceptAll
                (fixedStatusServer http.StatusOK emptyBody)
                concept "testTask" (BuildState testClient [])))
      [testConcept;
       Concept.Build "" [] "" "Test Type" "Test Concept Schema" "" "" "" "" false;
       Concept.Build "Test Pref Label" [] "" "" "Test Concept Schema" "" "" "" "" false;
       Concept.Build "Test Pref Label" [] "" "Test Type" "" "" "" "" "" false]
  = [Returns None;
     Returns (Some (errors_New "input concept should have prefLaber defined"));
     Returns (Some (errors_New "input concept should have type defined"));
     Returns (Some (errors_New
                      "input concept should have either schema or broader relation defined"))].
Proof. vm_compute. reflexivity. Qed.

Example test_CreateConcept_request :
  map (fun e => (http.Request.URL (http.request e), http.Request.Body (http.request e)))
      (history (snd (CreateConcept renderURL acceptAll
                       (fixedStatusServer http.StatusOK emptyBody)
                       testConcept "testTask" (BuildState testClient []))))
  = [("http://127.0.0.1:8080/sw/client/testClientID/api?path=task:testModel:testTask/skos:Concept/rdf:instance",
      Some (q "{'skosxl:prefLabel':[{'skosxl:literalForm':[{'@value':'Test Pref Label','@language':'en'}],'@type':['skosxl:Label']}],'@type':['skos:Concept','Test Type'],'skos:topConceptOf':{'@id':'Test Concept Schema'}}"))].
Proof. vm_compute. reflexivity. Qed.
